(** * DomTree: the lazily expandable object tree of lib/dom/domTree.js

    A shallow embedding of the widget and the properties of its row list.

    The widget is a JavaScript object whose methods mutate [this] and the
    DOM table it rendered.  The embedding threads one record, [DomTree],
    through a state-and-exception monad: a method either returns a value or
    throws, and in both cases the mutations made so far are kept, as in
    JavaScript.

    What lives outside lib/dom/domTree.js (Domplate, Reps, Trace, the
    promise machinery of the host) is modelled by the few definitions whose
    comment says so. *)

From Stdlib Require Import List String Bool Arith Lia DecimalString.
Import ListNotations.
Local Open Scope string_scope.
Local Open Scope list_scope.

Set Implicit Arguments.

(** ** JavaScript values *)

(** The values the tree shows.  Objects are references into the heap of the
    page; the widget never looks inside a value except in reflection mode
    (no provider), where it enumerates properties. *)
Inductive Value : Type :=
| VUndefined
| VNull
| VNumber (n : nat)
| VString (s : string)
| VObject (ref : nat).

(** [a == b] of JavaScript: objects compare by reference, [null] and
    [undefined] are equal to each other and to nothing else, primitives of
    one type by content.  The pairs the language compares only after a type
    coercion (see [coerces]) are outside this model: [looseEq] answers
    [false] on them, and every property that rests on a comparison is
    stated for values among which no such pair is compared. *)
Definition looseEq (a b : Value) : bool :=
  match a, b with
  | VUndefined, VUndefined | VUndefined, VNull
  | VNull, VUndefined | VNull, VNull => true
  | VNumber n, VNumber m => Nat.eqb n m
  | VString s, VString s' => String.eqb s s'
  | VObject r, VObject r' => Nat.eqb r r'
  | _, _ => false
  end.

(** Whether [a == b] first coerces one side to the type of the other: a
    number with a string, or an object with a number or a string (through
    the object's [valueOf] or [toString]).  On every other pair [looseEq] is
    the comparison the code makes. *)
Definition coerces (a b : Value) : bool :=
  match a, b with
  | VNumber _, VString _ | VString _, VNumber _
  | VObject _, VNumber _ | VNumber _, VObject _
  | VObject _, VString _ | VString _, VObject _ => true
  | _, _ => false
  end.

(** The enumerable properties of every heap object, in enumeration order. *)
Definition Heap := nat -> list (string * Value).

Definition indexName (i : nat) : string :=
  NilZero.string_of_uint (Nat.to_uint i).

Fixpoint stringProperties (i : nat) (s : string) : list (string * Value) :=
  match s with
  | EmptyString => []
  | String c rest =>
      (indexName i, VString (String c EmptyString)) :: stringProperties (S i) rest
  end.

(** [for (var p in obj)] together with [obj[p]]. *)
Definition forIn (heap : Heap) (obj : Value) : list (string * Value) :=
  match obj with
  | VObject ref => heap ref
  | VString s => stringProperties 0 s
  | _ => []
  end.

(** [typeof(value) === "object"]. *)
Definition typeofObject (v : Value) : bool :=
  match v with
  | VObject _ | VNull => true
  | _ => false
  end.

(** ** Results of calls *)

Inductive Outcome (A : Type) : Type :=
| Ret (a : A)
| Throw (e : string).

Arguments Ret {A} a.
Arguments Throw {A} e.

(** ** The member provider (external collaborator) *)

Module Provider.

(** What [getChildren] hands back: a realised sequence or a promise. *)
Inductive Fetched : Type :=
| Sequence (children : list Value)
| Pending.

Record t : Type := mk {
  getChildren : Value -> Outcome Fetched;
  hasChildren : Value -> Outcome bool;
  getLabel : Value -> Outcome string
}.

End Provider.

(** ** Members and rows *)

Module Member.

(** The object built by [createMember].  [id] stands for the identity of
    the JavaScript object ([member == Reps.getRepObject(row)] compares
    references); [provider] records whether [member.provider] was set. *)
Record t : Type := mk {
  id : nat;
  name : string;
  type : string;
  rowClass : string;
  open : string;
  level : nat;
  hasChildren : bool;
  value : Value;
  provider : bool
}.

Definition setHasChildren (b : bool) (m : t) : t :=
  mk (id m) (name m) (type m) (rowClass m) (open m) (level m) b (value m)
     (provider m).

Definition setProvider (b : bool) (m : t) : t :=
  mk (id m) (name m) (type m) (rowClass m) (open m) (level m)
     (hasChildren m) (value m) b.

End Member.

Module Row.

(** A [TR.memberRow] of the table: its bound member ([_repObject]), the
    classes the code tests ([opened], [spinning], [hasChildren]) and the
    [level] attribute.  The two cells are not modelled. *)
Record t : Type := mk {
  repObject : Member.t;
  opened : bool;
  spinning : bool;
  hasChildren : bool;
  level : nat
}.

Definition setOpened (b : bool) (r : t) : t :=
  mk (repObject r) b (spinning r) (hasChildren r) (level r).

Definition setSpinning (b : bool) (r : t) : t :=
  mk (repObject r) (opened r) b (hasChildren r) (level r).

Definition setRepObject (m : Member.t) (r : t) : t :=
  mk m (opened r) (spinning r) (hasChildren r) (level r).

End Row.

(** What [getMembers] returns: an array of members or a promise. *)
Inductive Members : Type :=
| MembersArray (members : list Member.t)
| MembersPromise (promise : nat).

(** What [fetchChildren] returns. *)
Inductive Children : Type :=
| ChildrenArray (children : list Value)
| ChildrenPromise (promise : nat).

(** The [input] handed to [append]: [Array.isArray(input)], [input.length]
    and [input.object]. *)
Module Input.

Record t : Type := mk {
  isArray : bool;
  length : nat;
  object : Value
}.

End Input.

(** The diagnostic channel: [Trace.sysout] and [TraceError.sysout]. *)
Inductive TraceEntry : Type :=
| Sysout (msg : string)
| ErrorSysout (msg : string).

(** A child of the table's [TBODY]: the sizer row the [tag] template puts
    first, or the i-th member row that follows it. *)
Inductive Node : Type :=
| SizerRow
| MemberRow (i : nat).

(** Where [insertRows] puts the new rows: after a member row, or in the
    [TBODY] itself. *)
Inductive Anchor : Type :=
| AfterRow (i : nat)
| Tbody.

(** ** The widget *)

(** [this], with the part of the host it touches.

    - [element]: the rendered table, as the list of its member rows; the
      sizer row is always the first child of the [TBODY] and is not stored;
    - [parentNode]: the children of the container other than [element];
    - [thenCallbacks]: the callbacks [resolvePromise] registered, each with
      the [object] its closure captured;
    - [nextPromise], [nextMember]: allocation of identities;
    - [trace]: the diagnostic channel, newest entry first. *)
Record DomTree : Type := mkDomTree {
  provider : option Provider.t;
  memberProvider : option (Value -> nat -> option Members);
  parentNode : option (list nat);
  input : option Input.t;
  element : option (list Row.t);
  fetchedChildren : option (list Value);
  heap : Heap;
  thenCallbacks : list (nat * Value);
  nextPromise : nat;
  nextMember : nat;
  trace : list TraceEntry
}.

(** [new DomTree(provider)] in a page with the given heap. *)
Definition newDomTree (provider : option Provider.t) (heap : Heap) : DomTree :=
  mkDomTree provider None None None None None heap [] 0 0 [].

Definition setParentNode (x : option (list nat)) (t : DomTree) : DomTree :=
  mkDomTree (provider t) (memberProvider t) x (input t) (element t)
    (fetchedChildren t) (heap t) (thenCallbacks t) (nextPromise t)
    (nextMember t) (trace t).

Definition setInput (x : option Input.t) (t : DomTree) : DomTree :=
  mkDomTree (provider t) (memberProvider t) (parentNode t) x (element t)
    (fetchedChildren t) (heap t) (thenCallbacks t) (nextPromise t)
    (nextMember t) (trace t).

Definition setElement (x : option (list Row.t)) (t : DomTree) : DomTree :=
  mkDomTree (provider t) (memberProvider t) (parentNode t) (input t) x
    (fetchedChildren t) (heap t) (thenCallbacks t) (nextPromise t)
    (nextMember t) (trace t).

Definition setFetchedChildren (x : option (list Value)) (t : DomTree) : DomTree :=
  mkDomTree (provider t) (memberProvider t) (parentNode t) (input t)
    (element t) x (heap t) (thenCallbacks t) (nextPromise t) (nextMember t)
    (trace t).

Definition setThenCallbacks (x : list (nat * Value)) (t : DomTree) : DomTree :=
  mkDomTree (provider t) (memberProvider t) (parentNode t) (input t)
    (element t) (fetchedChildren t) (heap t) x (nextPromise t) (nextMember t)
    (trace t).

Definition setNextPromise (x : nat) (t : DomTree) : DomTree :=
  mkDomTree (provider t) (memberProvider t) (parentNode t) (input t)
    (element t) (fetchedChildren t) (heap t) (thenCallbacks t) x
    (nextMember t) (trace t).

Definition setNextMember (x : nat) (t : DomTree) : DomTree :=
  mkDomTree (provider t) (memberProvider t) (parentNode t) (input t)
    (element t) (fetchedChildren t) (heap t) (thenCallbacks t)
    (nextPromise t) x (trace t).

Definition setTrace (x : list TraceEntry) (t : DomTree) : DomTree :=
  mkDomTree (provider t) (memberProvider t) (parentNode t) (input t)
    (element t) (fetchedChildren t) (heap t) (thenCallbacks t)
    (nextPromise t) (nextMember t) x.

(** The member rows currently in the table ([querySelectorAll(".memberRow")]);
    none before the first render. *)
Definition rows (t : DomTree) : list Row.t :=
  match element t with
  | Some rs => rs
  | None => []
  end.

(** ** The monad of methods *)

Definition M (A : Type) : Type := DomTree -> Outcome A * DomTree.

Definition ret {A} (a : A) : M A := fun t => (Ret a, t).

Definition throw {A} (e : string) : M A := fun t => (Throw e, t).

Definition bind {A B} (c : M A) (k : A -> M B) : M B :=
  fun t =>
    match c t with
    | (Ret a, t') => k a t'
    | (Throw e, t') => (Throw e, t')
    end.

Definition get : M DomTree := fun t => (Ret t, t).

Definition modify (f : DomTree -> DomTree) : M unit := fun t => (Ret tt, f t).

(** A call into the provider: its exception becomes ours. *)
Definition call {A} (o : Outcome A) : M A := fun t => (o, t).

Notation "x <- c ;; k" := (bind c (fun x => k))
  (at level 61, c at next level, right associativity).
Notation "c ;;; k" := (bind c (fun _ => k))
  (at level 61, right associativity).

Definition sysout (msg : string) : M unit :=
  modify (fun t => setTrace (Sysout msg :: trace t) t).

Definition errorSysout (msg : string) : M unit :=
  modify (fun t => setTrace (ErrorSysout msg :: trace t) t).

(** ** Domplate and Reps *)

(** Modelled from the spec: Domplate's rendering of [rowTag] (core/domplate.js
    is not part of the sources).  One row per member, bound to the member;
    the class list is ["memberRow $member.open $member.type\\Row"] plus
    [hasChildren] when [$member|hasChildren] is non-empty; the [level]
    attribute is [$member.level].  A fresh row never carries [spinning]. *)
Definition rowTag (member : Member.t) : Row.t :=
  Row.mk member (String.eqb (Member.open member) "opened") false
    (Member.hasChildren member) (Member.level member).

(** Modelled from the spec: Domplate's [insertRows(args, before, self)]
    (core/domplate.js is not part of the sources): mounts the rendered rows,
    in order, immediately below the row [before]; when [before] is the
    [TBODY] they are added to it, after the rows it already has.  No row is
    removed. *)
Definition insertRows (newRows : list Row.t) (before : Anchor)
    (rs : list Row.t) : list Row.t :=
  match before with
  | AfterRow i => firstn (S i) rs ++ newRows ++ skipn (S i) rs
  | Tbody => rs ++ newRows
  end.

(** [parent.removeChild(row)] for the i-th member row. *)
Definition removeChild (i : nat) (rs : list Row.t) : list Row.t :=
  firstn i rs ++ skipn (S i) rs.

(** The member row a node handle designates, with its index. *)
Definition memberRow (node : Node) (t : DomTree) : option (nat * Row.t) :=
  match node with
  | SizerRow => None
  | MemberRow i => option_map (pair i) (nth_error (rows t) i)
  end.

(** Modelled from the spec: [Reps.getRepObject(row)] (reps/reps.js is not
    part of the sources): the member bound to the row.  [rowTag] binds
    [_repObject: "$member"]; [sizerRowTag] binds nothing. *)
Definition getRepObject (node : Node) (t : DomTree) : option Member.t :=
  option_map (fun ir => Row.repObject (snd ir)) (memberRow node t).

(** Replace the i-th member row. *)
Fixpoint setNth (i : nat) (r : Row.t) (rs : list Row.t) : list Row.t :=
  match rs, i with
  | [], _ => []
  | _ :: rest, 0 => r :: rest
  | x :: rest, S j => x :: setNth j r rest
  end.

Definition updateRow (i : nat) (f : Row.t -> Row.t) : M unit :=
  modify (fun t =>
    match nth_error (rows t) i with
    | Some r => setElement (Some (setNth i (f r) (rows t))) t
    | None => t
    end).

Definition setRows (rs : list Row.t) : M unit :=
  modify (setElement (Some rs)).

(** ** Methods of DomTree.prototype *)

Definition getRowLevel (row : Row.t) : nat := Row.level row.

Definition getType (object : Value) : string := "dom".

Definition createMember (id : nat) (type name : string) (value : Value)
    (level : nat) (hasChildren : bool) : Member.t :=
  Member.mk id name type ("memberRow-" ++ type)%string "" level hasChildren
    value false.

Definition hasProperties (heap : Heap) (obj : Value) : bool :=
  match obj with
  | VString _ => false
  | _ => match forIn heap obj with
         | [] => false
         | _ :: _ => true
         end
  end.

(** [getObjectProperties(obj, callback)]: the callback runs once per
    property; what it throws is logged and the enumeration goes on.  [acc]
    is the array the callback of [getMembers] pushes to. *)
Fixpoint getObjectProperties {A} (props : list (string * Value))
    (callback : string -> Value -> A -> M A) (acc : A) : M A :=
  match props with
  | [] => ret acc
  | (p, v) :: rest =>
      fun t =>
        match callback p v acc t with
        | (Ret acc', t') => getObjectProperties rest callback acc' t'
        | (Throw e, t') =>
            (errorSysout ("domTree.getObjectProperties; EXCEPTION " ++ e)%string ;;;
             getObjectProperties rest callback acc) t'
        end
  end.

Definition isPromise (members : Members) : bool :=
  match members with
  | MembersPromise _ => true
  | MembersArray _ => false
  end.

(** [resolvePromise(promise, object)].  The host's promises call back
    asynchronously (the source's own remark: promises are always async now),
    so [sync] is already [false] when the callback runs and [result] is still
    undefined at the [return]: the method registers the two callbacks and
    returns the promise.  The callbacks themselves are [onFulfilled] and
    [onRejected] below. *)
Definition resolvePromise (promise : nat) (object : Value) : M nat :=
  modify (fun t => setThenCallbacks ((promise, object) :: thenCallbacks t) t) ;;;
  ret promise.

Definition fetchChildren (object : Value) : M Children :=
  t <- get ;;
  match provider t with
  | None =>
      errorSysout "domTree.fetchChildren; EXCEPTION TypeError: this.provider is undefined" ;;;
      ret (ChildrenArray [])
  | Some p =>
      match Provider.getChildren p object with
      | Throw e =>
          errorSysout ("domTree.fetchChildren; EXCEPTION " ++ e)%string ;;;
          ret (ChildrenArray [])
      | Ret Provider.Pending =>
          modify (setNextPromise (S (nextPromise t))) ;;;
          promise <- resolvePromise (nextPromise t) object ;;
          ret (ChildrenPromise promise)
      | Ret (Provider.Sequence children) => ret (ChildrenArray children)
      end
  end.

Definition freshMember : M nat :=
  t <- get ;;
  modify (setNextMember (S (nextMember t))) ;;;
  ret (nextMember t).

(** The [for] loop of [getMembers] over the provider's children. *)
Fixpoint createMembers (p : Provider.t) (children : list Value) (level : nat)
    (members : list Member.t) : M (list Member.t) :=
  match children with
  | [] => ret members
  | child :: rest =>
      hasChildren <- call (Provider.hasChildren p child) ;;
      let type := getType child in
      name <- call (Provider.getLabel p child) ;;
      id <- freshMember ;;
      let member := createMember id type name child level hasChildren in
      let member := Member.setProvider true member in
      createMembers p rest level (members ++ [member])
  end.

(** The callback [getMembers] passes to [getObjectProperties]. *)
Definition propertyMember (level : nat) (prop : string) (value : Value)
    (members : list Member.t) : M (list Member.t) :=
  t <- get ;;
  let hasChildren := typeofObject value && hasProperties (heap t) value in
  let type := getType value in
  id <- freshMember ;;
  let member := createMember id type prop value level hasChildren in
  ret (members ++ [member]).

(** [this.memberProvider.getMembers(object, level)] when the tree has a
    member provider; [None] is a falsy answer or no member provider. *)
Definition memberProviderMembers (t : DomTree) (object : Value) (level : nat)
    : option Members :=
  match memberProvider t with
  | Some hook => hook object level
  | None => None
  end.

Definition getMembers (object : Value) (level : nat) : M Members :=
  t <- get ;;
  let members := memberProviderMembers t object level in
  match members with
  | Some members => ret members
  | None =>
      match provider t with
      | Some p =>
          children <-
            match fetchedChildren t with
            | Some children => ret (ChildrenArray children)
            | None => fetchChildren object
            end ;;
          modify (setFetchedChildren None) ;;;
          match children with
          | ChildrenPromise promise => ret (MembersPromise promise)
          | ChildrenArray children =>
              members <- createMembers p children level [] ;;
              ret (MembersArray members)
          end
      | None =>
          members <-
            getObjectProperties (forIn (heap t) object) (propertyMember level) [] ;;
          ret (MembersArray members)
      end
  end.

Definition memberIterator (object : Value) : M (list Member.t) :=
  members <- getMembers object 0 ;;
  match members with
  | MembersPromise _ => ret []
  | MembersArray members => ret members
  end.

(** The loop of [toggleRow] that removes the rows of a subtree: [siblings]
    are the rows after the toggled one; rows are removed while their level
    is not [<= level]. *)
Fixpoint removeSubtree (level : nat) (siblings : list Row.t) : list Row.t :=
  match siblings with
  | [] => []
  | firstRow :: rest =>
      if (getRowLevel firstRow <=? level)%nat then siblings
      else removeSubtree level rest
  end.

(** [toggleRow(row, forceOpen)].  [row] is [None] for a null row; a handle
    that designates no mounted row has no member either.  The result is the
    promise the method returns when the children are not there yet. *)
Definition toggleRow (row : option Node) (forceOpen : bool) : M (option nat) :=
  match row with
  | None => ret None
  | Some node =>
      t <- get ;;
      match getRepObject node t, memberRow node t with
      | Some member, Some (i, r) =>
          let level := getRowLevel r in
          if forceOpen && Row.opened r then ret None
          else if Row.opened r then
            setRows (firstn i (rows t) ++ Row.setOpened false r ::
                     removeSubtree level (skipn (S i) (rows t))) ;;;
            ret None
          else if negb (Member.hasChildren member) then ret None
          else
            updateRow i (Row.setOpened true) ;;;
            members <- getMembers (Member.value member) (level + 1) ;;
            sysout "DomTree.toggleRow" ;;;
            match members with
            | MembersArray [] => ret None
            | MembersArray (m :: ms) =>
                t' <- get ;;
                setRows (insertRows (map rowTag (m :: ms)) (AfterRow i) (rows t')) ;;;
                ret None
            | MembersPromise promise =>
                updateRow i (Row.setSpinning true) ;;;
                ret (Some promise)
            end
      | _, _ => ret None
      end
  end.

(** Index of the first element satisfying [f]. *)
Fixpoint findIndex {A} (f : A -> bool) (l : list A) : option nat :=
  match l with
  | [] => None
  | x :: rest => if f x then Some 0 else option_map S (findIndex f rest)
  end.

(** [getRow(object)]: the first member row whose member's value [== object];
    [None] stands for both [undefined] (not rendered yet) and [null]. *)
Definition getRow (object : Value) (t : DomTree) : option nat :=
  match element t with
  | None => None
  | Some rs =>
      findIndex (fun row => looseEq (Member.value (Row.repObject row)) object) rs
  end.

(** [getMemberRow(member)]: the first member row bound to that very member. *)
Definition getMemberRow (member : Member.t) (t : DomTree) : option nat :=
  match element t with
  | None => None
  | Some rs =>
      findIndex (fun row => Nat.eqb (Member.id member)
                                    (Member.id (Row.repObject row))) rs
  end.

Definition expandMember (member : Member.t) : M (option nat) :=
  t <- get ;;
  match getMemberRow member t with
  | Some i => toggleRow (Some (MemberRow i)) true
  | None => ret None
  end.

Definition expandObject (object : Value) : M (option nat) :=
  t <- get ;;
  match getRow object t with
  | None =>
      errorSysout "domTree.expandObject; ERROR no such object" ;;;
      ret None
  | Some i => toggleRow (Some (MemberRow i)) true
  end.

Definition collapseObject (object : Value) : M unit :=
  t <- get ;;
  match getRow object t with
  | None => throw "TypeError: row is null"
  | Some i =>
      match nth_error (rows t) i with
      | None => throw "TypeError: row is null"
      | Some row =>
          if Row.opened row then
            toggleRow (Some (MemberRow i)) false ;;;
            ret tt
          else ret tt
      end
  end.

(** [member.hasChildren = b] on the member object with the given identity:
    every row bound to that object sees the new flag. *)
Definition assignHasChildren (id : nat) (b : bool) (rs : list Row.t) : list Row.t :=
  map (fun row =>
         if Nat.eqb (Member.id (Row.repObject row)) id
         then Row.setRepObject (Member.setHasChildren b (Row.repObject row)) row
         else row) rs.

(** [doUpdateObject(object)].  In the root branch [members] is always
    truthy; Domplate's loop over a promise in place of the array raises (a
    promise cannot be iterated), which [updateObject] then catches. *)
Definition doUpdateObject (object : Value) : M unit :=
  t <- get ;;
  let row := getRow object t in
  match input t with
  | None => throw "TypeError: this.input is undefined"
  | Some inp =>
      if looseEq (Input.object inp) object then
        members <- getMembers object 0 ;;
        t1 <- get ;;
        match element t1 with
        | None => throw "TypeError: this.element is undefined"
        | Some rs =>
            match members with
            | MembersArray members =>
                setRows (insertRows (map rowTag members) Tbody rs)
            | MembersPromise _ => throw "TypeError: iter.next is not a function"
            end
        end
      else
        match row with
        | None => sysout "domTree.updateObject; This object can't be updated"
        | Some i =>
            match nth_error (rows t) i with
            | None => throw "TypeError: row is null"
            | Some r =>
                let member := Row.repObject r in
                match provider t with
                | None => throw "TypeError: this.provider is undefined"
                | Some p =>
                    hasChildren <- call (Provider.hasChildren p object) ;;
                    let member := Member.setHasChildren hasChildren member in
                    modify (fun t =>
                      setElement
                        (Some (assignHasChildren (Member.id member) hasChildren
                                 (rows t))) t) ;;;
                    let expanded := Row.opened r in
                    (if expanded then toggleRow (Some (MemberRow i)) false
                     else ret None) ;;;
                    sysout "domTree.updateObject;" ;;;
                    t2 <- get ;;
                    setRows (insertRows [rowTag member] (AfterRow i) (rows t2)) ;;;
                    t3 <- get ;;
                    setRows (removeChild i (rows t3)) ;;;
                    if expanded then
                      if Member.hasChildren member then
                        expandObject object ;;; ret tt
                      else collapseObject object
                    else ret tt
                end
            end
        end
  end.

Definition updateObject (object : Value) : M unit :=
  fun t =>
    match doUpdateObject object t with
    | (Ret _, t') => (Ret tt, t')
    | (Throw e, t') =>
        errorSysout ("domTree.updateObject; EXCEPTION " ++ e)%string t'
    end.

(** The fulfilment callback [resolvePromise] registers, run by the host
    after [sync] became [false]. *)
Definition onFulfilled (object : Value) (value : list Value) : M unit :=
  sysout "domTree.resolvePromise; done, sync: false" ;;;
  modify (setFetchedChildren (Some value)) ;;;
  updateObject object.

(** The rejection callback [resolvePromise] registers. *)
Definition onRejected (err : string) : M unit :=
  errorSysout ("domTree.onResolvePromise; ERROR " ++ err)%string.

(** ** The host settling a promise *)

Fixpoint lookupCallback (promise : nat) (cbs : list (nat * Value)) : option Value :=
  match cbs with
  | [] => None
  | (p, object) :: rest =>
      if Nat.eqb p promise then Some object else lookupCallback promise rest
  end.

Definition dropCallback (promise : nat) (cbs : list (nat * Value)) : list (nat * Value) :=
  filter (fun cb => negb (Nat.eqb (fst cb) promise)) cbs.

(** The promise is fulfilled with [value]: its callback, if the widget
    registered one, runs once. *)
Definition promiseFulfilled (promise : nat) (value : list Value) : M unit :=
  t <- get ;;
  match lookupCallback promise (thenCallbacks t) with
  | None => ret tt
  | Some object =>
      modify (setThenCallbacks (dropCallback promise (thenCallbacks t))) ;;;
      onFulfilled object value
  end.

(** The promise is rejected with [err]. *)
Definition promiseRejected (promise : nat) (err : string) : M unit :=
  t <- get ;;
  match lookupCallback promise (thenCallbacks t) with
  | None => ret tt
  | Some _ =>
      modify (setThenCallbacks (dropCallback promise (thenCallbacks t))) ;;;
      onRejected err
  end.

(** ** Public methods *)

(** [Dom.clearNode(parentNode)]. *)
Definition clearNode (parentNode : list nat) : list nat := [].

(** [append(parentNode, input, noExpand)].  [this.tag.append] renders the
    [tag] template: a table whose [TBODY] holds the sizer row and then one
    [rowTag] per member of [$object|memberIterator], and adds the table to
    [parentNode].  [this.element.firstChild.firstChild] is therefore the
    sizer row. *)
Definition append (parentNode : list nat) (input : Input.t) (noExpand : bool) : M unit :=
  modify (setParentNode (Some parentNode)) ;;;
  modify (setInput (Some input)) ;;;
  members <- memberIterator (Input.object input) ;;
  modify (setElement (Some (map rowTag members))) ;;;
  if noExpand then ret tt
  else
    let value := Input.isArray input && (2 <? Input.length input)%nat in
    let firstRow := Some SizerRow in
    if negb value then toggleRow firstRow false ;;; ret tt
    else ret tt.

Definition replace (parentNode : list nat) (input : Input.t) (noExpand : bool) : M unit :=
  append (clearNode parentNode) input noExpand.

Definition isEmpty (t : DomTree) : bool :=
  match element t with
  | None => true
  | Some rs => match rs with [] => true | _ :: _ => false end
  end.

(** ** Row states of the specification *)

Inductive RowState : Type :=
| Collapsed
| Expanded
| PendingFetch.

(** A row is pending while it is marked [opened] and [spinning], expanded
    when marked [opened] only, collapsed otherwise. *)
Definition rowState (row : Row.t) : RowState :=
  if Row.opened row then
    if Row.spinning row then PendingFetch else Expanded
  else Collapsed.

(** State after running a method. *)
Definition exec {A} (c : M A) (t : DomTree) : DomTree := snd (c t).

(** ** Frame of member fetching *)

(** The parts of the widget that [getMembers] never writes: the bindings
    and the rendered table. *)
Definition sameTable (t t' : DomTree) : Prop :=
  provider t' = provider t /\
  memberProvider t' = memberProvider t /\
  parentNode t' = parentNode t /\
  input t' = input t /\
  element t' = element t /\
  heap t' = heap t.

(** A computation that keeps the table, whatever it returns. *)
Definition keepsTable {A} (c : M A) : Prop :=
  forall t, sameTable t (snd (c t)).

(** ** Sample widgets *)

Definition rowValue (row : Row.t) : Value := Member.value (Row.repObject row).

Definition emptyHeap : Heap := fun _ => [].

(** A provider of remote objects: object 0 has the children 1 and 2, both
    expandable; the children of object 1 arrive asynchronously; object 2 and
    everything else has none. *)
Definition gripProvider : Provider.t :=
  Provider.mk
    (fun v =>
       match v with
       | VObject 0 => Ret (Provider.Sequence [VObject 1; VObject 2])
       | VObject 1 => Ret Provider.Pending
       | _ => Ret (Provider.Sequence [])
       end)
    (fun v =>
       match v with
       | VObject 1 | VObject 2 => Ret true
       | _ => Ret false
       end)
    (fun _ => Ret "grip").

(** A provider that fails: fetching the children of object 1 throws, and so
    does the label of object 5, the only child of object 2. *)
Definition brokenProvider : Provider.t :=
  Provider.mk
    (fun v =>
       match v with
       | VObject 0 => Ret (Provider.Sequence [VObject 1; VObject 2])
       | VObject 1 => Throw "connection closed"
       | VObject 2 => Ret (Provider.Sequence [VObject 5])
       | _ => Ret (Provider.Sequence [])
       end)
    (fun v =>
       match v with
       | VObject 1 | VObject 2 => Ret true
       | _ => Ret false
       end)
    (fun v =>
       match v with
       | VObject 5 => Throw "label fault"
       | _ => Ret "grip"
       end).

Definition rootInput : Input.t := Input.mk false 0 (VObject 0).

(** The heap of the page for reflection mode: object 0 is [{a: {x: 1}, b: 2}]
    and object 1 is its property [a]. *)
Definition sampleHeap : Heap :=
  fun ref =>
    match ref with
    | 0 => [("a", VObject 1); ("b", VNumber 2)]
    | 1 => [("x", VNumber 1)]
    | _ => []
    end.

(** A widget without provider rendered on object 0 of [sampleHeap]. *)
Definition reflected : DomTree :=
  exec (replace [] rootInput true) (newDomTree None sampleHeap).

(** The two root rows of object 0 as [rowTag] renders them. *)
Definition rowA : Row.t :=
  rowTag (Member.mk 0 "grip" "dom" "memberRow-dom" "" 0 true (VObject 1) true).

Definition rowB : Row.t :=
  rowTag (Member.mk 1 "grip" "dom" "memberRow-dom" "" 0 true (VObject 2) true).

(** [replace(parentNode, {object: 0}, true)] on a fresh widget. *)
Definition rendered : DomTree :=
  exec (replace [] rootInput true) (newDomTree (Some gripProvider) emptyHeap).

(** The same render with auto-expansion requested. *)
Definition autoRendered : DomTree :=
  exec (replace [] rootInput false) (newDomTree (Some gripProvider) emptyHeap).

(** The first row is toggled: its children are requested (promise 0). *)
Definition pendingA : DomTree :=
  exec (toggleRow (Some (MemberRow 0)) false) rendered.

(** Promise 0 is fulfilled while the row is pending. *)
Definition expandedA : DomTree :=
  exec (promiseFulfilled 0 [VObject 10; VObject 11]) pendingA.

(** The pending row is toggled again (collapsed) before promise 0 settles. *)
Definition collapsedA : DomTree :=
  exec (toggleRow (Some (MemberRow 0)) false) pendingA.

(** Promise 0 is fulfilled after the collapse. *)
Definition resolvedA : DomTree :=
  exec (promiseFulfilled 0 [VObject 10; VObject 11]) collapsedA.

(** Then the second row, bound to object 2, is toggled. *)
Definition expandedB : DomTree :=
  exec (toggleRow (Some (MemberRow 1)) false) resolvedA.

(** The root rows rendered over the failing provider. *)
Definition brokenRendered : DomTree :=
  exec (replace [] rootInput true) (newDomTree (Some brokenProvider) emptyHeap).


(** ** The click handler *)

(** What [onClick] reads from the event: [Events.isLeftClick(event)], the
    [memberRow] ancestor of the target and whether the target lies in a
    [memberLabel]. *)
Module ClickEvent.

Record t : Type := mk {
  isLeftClick : bool;
  row : option Node;
  label : bool
}.

End ClickEvent.

(** [row.classList.contains("hasChildren")]; the sizer row has no class. *)
Definition hasChildrenClass (node : Node) (t : DomTree) : bool :=
  match memberRow node t with
  | Some (_, r) => Row.hasChildren r
  | None => false
  end.

(** [onClick(event)]; [Events.cancelEvent] does not touch the widget. *)
Definition onClick (event : ClickEvent.t) : M unit :=
  if negb (ClickEvent.isLeftClick event) then ret tt
  else
    t <- get ;;
    if ClickEvent.label event then
      match ClickEvent.row event with
      | None => throw "TypeError: row is null"
      | Some node =>
          if hasChildrenClass node t then
            toggleRow (Some node) false ;;; ret tt
          else ret tt
      end
    else ret tt.

(** ** The members a fetch yields, written out *)

(** The members the loop of [getMembers] builds for [children] when the
    provider answers [hc] and [label] for them; [id] is the first identity. *)
Fixpoint providerMembers (hc : Value -> bool) (label : Value -> string)
    (id : nat) (children : list Value) (level : nat) : list Member.t :=
  match children with
  | [] => []
  | child :: rest =>
      Member.setProvider true
        (createMember id (getType child) (label child) child level (hc child))
      :: providerMembers hc label (S id) rest level
  end.

(** The members [getMembers] builds in reflection mode for the enumerated
    properties. *)
Fixpoint reflectionMembers (heap : Heap) (id : nat)
    (props : list (string * Value)) (level : nat) : list Member.t :=
  match props with
  | [] => []
  | (prop, v) :: rest =>
      createMember id (getType v) prop v level
        (typeofObject v && hasProperties heap v)
      :: reflectionMembers heap (S id) rest level
  end.

(** ** The table half-way through an update *)


(** ** More sample widgets *)

(** A provider of a small tree: object 0 has the children 1 and 2, object 1
    the children 3 and 4; only object 1 is expandable. *)
Definition treeProvider : Provider.t :=
  Provider.mk
    (fun v =>
       match v with
       | VObject 0 => Ret (Provider.Sequence [VObject 1; VObject 2])
       | VObject 1 => Ret (Provider.Sequence [VObject 3; VObject 4])
       | _ => Ret (Provider.Sequence [])
       end)
    (fun v =>
       match v with
       | VObject 1 => Ret true
       | _ => Ret false
       end)
    (fun _ => Ret "node").

(** What [treeProvider] answers, as plain functions. *)
Definition treeHasChildren (v : Value) : bool :=
  match v with
  | VObject 1 => true
  | _ => false
  end.

Definition gripHasChildren (v : Value) : bool :=
  match v with
  | VObject 1 | VObject 2 => true
  | _ => false
  end.


(** The root rows of object 0 over [treeProvider]. *)
Definition treeRendered : DomTree :=
  exec (replace [] rootInput true) (newDomTree (Some treeProvider) emptyHeap).

Definition treeRowA : Row.t :=
  rowTag (Member.mk 0 "node" "dom" "memberRow-dom" "" 0 true (VObject 1) true).



(** The widget of [pendingA] rendered again, on object 2, while promise 0
    for object 1 is still outstanding. *)
Definition rerendered : DomTree :=
  exec (replace [] (Input.mk false 0 (VObject 2)) true) pendingA.

(** A left click on the label of the i-th member row. *)
Definition labelClick (i : nat) : ClickEvent.t :=
  ClickEvent.mk true (Some (MemberRow i)) true.

(** * Properties *)

(** ** Lists of rows *)

Lemma nth_error_split_at {A} (l : list A) (i : nat) (x : A) :
  nth_error l i = Some x ->
  l = firstn i l ++ x :: skipn (S i) l /\ List.length (firstn i l) = i.
Proof.
  revert i; induction l as [|a l IH]; intros [|i] H; simpl in *; try discriminate.
  - injection H as ->. split; reflexivity.
  - destruct (IH i H) as [E L]. split; [f_equal; exact E | f_equal; exact L].
Qed.

(** The removal loop cuts the longest prefix of deeper rows and nothing
    else. *)
Lemma removeSubtree_spec (level : nat) (siblings : list Row.t) :
  exists block after,
    siblings = block ++ after /\
    Forall (fun row => level < getRowLevel row) block /\
    match after with
    | [] => True
    | row :: _ => getRowLevel row <= level
    end /\
    removeSubtree level siblings = after.
Proof.
  induction siblings as [|row rest IH].
  - exists [], []. repeat split; constructor.
  - simpl. destruct (Nat.leb_spec (getRowLevel row) level) as [Hle|Hgt].
    + exists [], (row :: rest). repeat split; [constructor | exact Hle].
    + destruct IH as (block & after & E & Hb & Ha & Hr).
      exists (row :: block), after. repeat split.
      * simpl. f_equal. exact E.
      * constructor; assumption.
      * exact Ha.
      * exact Hr.
Qed.

Lemma memberRow_nth (t : DomTree) (i : nat) (r : Row.t) :
  nth_error (rows t) i = Some r ->
  memberRow (MemberRow i) t = Some (i, r) /\
  getRepObject (MemberRow i) t = Some (Row.repObject r).
Proof.
  intros H. unfold getRepObject, memberRow. rewrite H. split; reflexivity.
Qed.

(** ** toggleRow on an opened row, and on a leaf *)

(** What [toggleRow] does to a row that is marked [opened]. *)
Lemma toggleRow_opened (t : DomTree) (i : nat) (r : Row.t) (forceOpen : bool) :
  nth_error (rows t) i = Some r ->
  Row.opened r = true ->
  toggleRow (Some (MemberRow i)) forceOpen t =
    if forceOpen then (Ret None, t)
    else (Ret None,
          setElement (Some (firstn i (rows t) ++ Row.setOpened false r ::
                            removeSubtree (getRowLevel r) (skipn (S i) (rows t)))) t).
Proof.
  intros Hn Ho. destruct (memberRow_nth t i Hn) as [Hm Hg].
  unfold toggleRow, bind, get. rewrite Hg, Hm, Ho.
  destruct forceOpen; reflexivity.
Qed.

(** C2. Collapsing an expanded row [r] (toggleRow on a row marked opened)
    removes exactly the contiguous block of rows that immediately follows
    [r] and lies strictly deeper than [r], up to the first row whose level
    is [<=] that of [r] or to the end of the list; the rows before [r] and
    the rows from that boundary on are kept as they are, [r] itself only
    loses its opened mark, and nothing else of the widget changes. *)
Theorem toggleRow_collapse_removes_subtree (t : DomTree) (i : nat) (r : Row.t) :
  nth_error (rows t) i = Some r ->
  Row.opened r = true ->
  exists before block after,
    rows t = before ++ r :: block ++ after /\
    List.length before = i /\
    Forall (fun row => Row.level r < Row.level row) block /\
    match after with
    | [] => True
    | row :: _ => Row.level row <= Row.level r
    end /\
    toggleRow (Some (MemberRow i)) false t =
      (Ret None,
       setElement (Some (before ++ Row.setOpened false r :: after)) t).
Proof.
  intros Hn Ho.
  destruct (nth_error_split_at _ _ Hn) as [Hsplit Hlen].
  destruct (removeSubtree_spec (getRowLevel r) (skipn (S i) (rows t)))
    as (block & after & Hrest & Hblock & Hafter & Hrem).
  exists (firstn i (rows t)), block, after.
  split; [| split; [| split; [| split]]].
  - rewrite <- Hrest. exact Hsplit.
  - exact Hlen.
  - exact Hblock.
  - exact Hafter.
  - rewrite (toggleRow_opened t i false Hn Ho), Hrem. reflexivity.
Qed.

(** C8. toggleRow with forceOpen = true on a row that is expanded or
    pending is a no-op: it returns without a promise and the whole widget
    state (row list, row marks, registered fetches, trace) is unchanged. *)
Theorem toggleRow_forceOpen_idempotent (t : DomTree) (i : nat) (r : Row.t) :
  nth_error (rows t) i = Some r ->
  rowState r = Expanded \/ rowState r = PendingFetch ->
  toggleRow (Some (MemberRow i)) true t = (Ret None, t).
Proof.
  intros Hn Hs.
  assert (Ho : Row.opened r = true).
  { unfold rowState in Hs. destruct (Row.opened r); [reflexivity|].
    destruct Hs; discriminate. }
  exact (toggleRow_opened t i true Hn Ho).
Qed.

(** C9. toggleRow on a collapsed row whose member says hasChildren = false
    mounts nothing and leaves the row collapsed: it returns at once, without
    asking the provider, and the widget state is unchanged. *)
Theorem toggleRow_leaf_noop (t : DomTree) (i : nat) (r : Row.t) (forceOpen : bool) :
  nth_error (rows t) i = Some r ->
  rowState r = Collapsed ->
  Member.hasChildren (Row.repObject r) = false ->
  toggleRow (Some (MemberRow i)) forceOpen t = (Ret None, t).
Proof.
  intros Hn Hs Hc.
  assert (Ho : Row.opened r = false).
  { unfold rowState in Hs. destruct (Row.opened r); [|reflexivity].
    destruct (Row.spinning r); discriminate. }
  destruct (memberRow_nth t i Hn) as [Hm Hg].
  unfold toggleRow, bind, get. rewrite Hg, Hm, Ho, Hc.
  rewrite andb_false_r. reflexivity.
Qed.

(** ** What fetching members leaves alone *)

Lemma sameTable_refl (t : DomTree) : sameTable t t.
Proof. repeat split. Qed.

Lemma sameTable_trans (t1 t2 t3 : DomTree) :
  sameTable t1 t2 -> sameTable t2 t3 -> sameTable t1 t3.
Proof.
  unfold sameTable. intros (a & b & c & d & e & f) (a' & b' & c' & d' & e' & f').
  repeat split; congruence.
Qed.

#[local] Arguments String.append : simpl never.
#[local] Arguments insertRows : simpl never.
#[local] Arguments removeChild : simpl never.

Ltac run :=
  unfold sysout, errorSysout, updateRow, setRows, freshMember;
  unfold bind, get, ret, modify, call, throw; cbn [fst snd].

Lemma keepsTable_ret {A} (a : A) : keepsTable (ret a).
Proof. intro t. apply sameTable_refl. Qed.

Lemma keepsTable_call {A} (o : Outcome A) : keepsTable (call o).
Proof. intro t. apply sameTable_refl. Qed.

Lemma keepsTable_get : keepsTable get.
Proof. intro t. apply sameTable_refl. Qed.

Lemma keepsTable_bind {A B} (c : M A) (k : A -> M B) :
  keepsTable c -> (forall a, keepsTable (k a)) -> keepsTable (bind c k).
Proof.
  intros Hc Hk t. unfold bind. specialize (Hc t).
  destruct (c t) as [[a|e] t']; simpl in *; [|exact Hc].
  eapply sameTable_trans; [exact Hc | apply Hk].
Qed.

Lemma keepsTable_modify (f : DomTree -> DomTree) :
  (forall t, sameTable t (f t)) -> keepsTable (modify f).
Proof. intros H t. apply H. Qed.

Lemma keepsTable_sysout (msg : string) : keepsTable (sysout msg).
Proof. apply keepsTable_modify. intro t. repeat split. Qed.

Lemma keepsTable_errorSysout (msg : string) : keepsTable (errorSysout msg).
Proof. apply keepsTable_modify. intro t. repeat split. Qed.

Lemma keepsTable_freshMember : keepsTable freshMember.
Proof.
  apply keepsTable_bind; [apply keepsTable_get | intro t0].
  apply keepsTable_bind; [| intros _; apply keepsTable_ret].
  apply keepsTable_modify. intro t. repeat split.
Qed.

Create HintDb frame.
#[local] Hint Resolve keepsTable_ret keepsTable_call keepsTable_get
  keepsTable_sysout keepsTable_errorSysout keepsTable_freshMember : frame.

Lemma keepsTable_createMembers (p : Provider.t) (children : list Value) (level : nat) :
  forall members, keepsTable (createMembers p children level members).
Proof.
  induction children as [|child rest IH]; intros members; simpl.
  - auto with frame.
  - repeat (apply keepsTable_bind; [auto with frame | intro]). apply IH.
Qed.

Lemma keepsTable_getObjectProperties {A} (props : list (string * Value))
    (callback : string -> Value -> A -> M A) :
  (forall p v acc, keepsTable (callback p v acc)) ->
  forall acc, keepsTable (getObjectProperties props callback acc).
Proof.
  intros Hcb. induction props as [|[prop v] rest IH]; intros acc t; simpl.
  - apply sameTable_refl.
  - specialize (Hcb prop v acc t).
    destruct (callback prop v acc t) as [[acc'|e] t']; simpl in *.
    + eapply sameTable_trans; [exact Hcb | apply IH].
    + eapply sameTable_trans; [exact Hcb |].
      apply keepsTable_bind; [auto with frame | intros _; apply IH].
Qed.

Lemma keepsTable_propertyMember (level : nat) (prop : string) (v : Value)
    (members : list Member.t) :
  keepsTable (propertyMember level prop v members).
Proof.
  unfold propertyMember.
  repeat (apply keepsTable_bind; [auto with frame | intro]). auto with frame.
Qed.

Lemma keepsTable_resolvePromise (promise : nat) (object : Value) :
  keepsTable (resolvePromise promise object).
Proof.
  unfold resolvePromise.
  apply keepsTable_bind; [| intros _; auto with frame].
  apply keepsTable_modify. intro t. repeat split.
Qed.

Lemma keepsTable_fetchChildren (object : Value) : keepsTable (fetchChildren object).
Proof.
  unfold fetchChildren. apply keepsTable_bind; [auto with frame | intro t0].
  destruct (provider t0) as [p|].
  - destruct (Provider.getChildren p object) as [[children|]|e].
    + auto with frame.
    + apply keepsTable_bind; [apply keepsTable_modify; intro t; repeat split | intros _].
      apply keepsTable_bind; [apply keepsTable_resolvePromise | intro]. auto with frame.
    + apply keepsTable_bind; [auto with frame | intros _; auto with frame].
  - apply keepsTable_bind; [auto with frame | intros _; auto with frame].
Qed.

Lemma keepsTable_getMembers (object : Value) (level : nat) :
  keepsTable (getMembers object level).
Proof.
  unfold getMembers. apply keepsTable_bind; [auto with frame | intro t0].
  destruct (memberProviderMembers t0 object level) as [members|];
    [auto with frame|].
  destruct (provider t0) as [p|].
  - apply keepsTable_bind.
    + destruct (fetchedChildren t0); [auto with frame | apply keepsTable_fetchChildren].
    + intros children.
      apply keepsTable_bind; [apply keepsTable_modify; intro t; repeat split | intros _].
      destruct children as [children|promise]; [|auto with frame].
      apply keepsTable_bind; [apply keepsTable_createMembers | intro; auto with frame].
  - apply keepsTable_bind; [| intro; auto with frame].
    apply keepsTable_getObjectProperties. apply keepsTable_propertyMember.
Qed.

(** [getMembers] leaves the rendered rows as they are. *)
Lemma getMembers_element (object : Value) (level : nat) (t : DomTree) :
  element (snd (getMembers object level t)) = element t.
Proof. apply (keepsTable_getMembers object level t). Qed.

(** ** Rendering *)

(** The sizer row carries no member: toggling it does nothing. *)
Lemma toggleRow_sizer (forceOpen : bool) (t : DomTree) :
  toggleRow (Some SizerRow) forceOpen t = (Ret None, t).
Proof. reflexivity. Qed.

(** [append] behaves the same with and without [noExpand]: the row it
    toggles is the sizer row. *)
Lemma append_noExpand_irrelevant (parentNode : list nat) (input : Input.t)
    (t : DomTree) :
  append parentNode input false t = append parentNode input true t.
Proof.
  unfold append, bind, modify. cbn [fst snd].
  destruct (memberIterator _ _) as [[members|e] t']; [|reflexivity].
  cbn. destruct (negb _); reflexivity.
Qed.

(** C10. When the child fetch for the root input yields a promise, the
    member iterator answers the empty array instead of the promise, and the
    initial render returns normally with a table of zero member rows, no
    row toggled, and the fetch registered for later. *)
Theorem replace_pending_root_renders_no_rows (t : DomTree) (p : Provider.t)
    (parentNode : list nat) (input : Input.t) (noExpand : bool) :
  memberProviderMembers t (Input.object input) 0 = None ->
  provider t = Some p ->
  fetchedChildren t = None ->
  Provider.getChildren p (Input.object input) = Ret Provider.Pending ->
  fst (memberIterator (Input.object input) t) = Ret [] /\
  fst (replace parentNode input noExpand t) = Ret tt /\
  element (exec (replace parentNode input noExpand) t) = Some [] /\
  isEmpty (exec (replace parentNode input noExpand) t) = true /\
  trace (exec (replace parentNode input noExpand) t) = trace t /\
  thenCallbacks (exec (replace parentNode input noExpand) t) =
    (nextPromise t, Input.object input) :: thenCallbacks t.
Proof.
  intros Hhook Hp Hf Hc.
  assert (Hfirst : fst (memberIterator (Input.object input) t) = Ret []).
  { unfold memberIterator, getMembers, fetchChildren, resolvePromise. run.
    rewrite Hhook, Hp, Hf. cbn. rewrite Hp. cbn. rewrite Hc. reflexivity. }
  split; [exact Hfirst|].
  assert (Hrun : forall b,
            replace parentNode input b t =
            (Ret tt,
             setElement (Some [])
               (setFetchedChildren None
                  (setThenCallbacks ((nextPromise t, Input.object input) :: thenCallbacks t)
                     (setNextPromise (S (nextPromise t))
                        (setInput (Some input)
                           (setParentNode (Some []) t))))))).
  { intros b. unfold replace, clearNode.
    transitivity (append [] input true t);
      [destruct b; [reflexivity | apply append_noExpand_irrelevant]|].
    unfold append, memberIterator, getMembers, fetchChildren, resolvePromise. run.
    unfold memberProviderMembers in *. cbn. rewrite Hhook, Hp, Hf. cbn. rewrite Hp. cbn. rewrite Hc. reflexivity. }
  unfold exec. rewrite (Hrun noExpand). cbn. repeat split.
Qed.

(** ** Settling a fetch *)

(** C3 (as the code has it). When a child fetch the widget registered is
    rejected, the failure is reported on the diagnostic channel and no row
    is mounted; the table is left exactly as it was, so the originating row
    keeps the marks it had (a row that was pending stays pending). *)
Theorem promiseRejected_logs_and_keeps_rows (t : DomTree) (promise : nat)
    (object : Value) (err : string) :
  lookupCallback promise (thenCallbacks t) = Some object ->
  fst (promiseRejected promise err t) = Ret tt /\
  element (exec (promiseRejected promise err) t) = element t /\
  fetchedChildren (exec (promiseRejected promise err) t) = fetchedChildren t /\
  trace (exec (promiseRejected promise err) t) =
    ErrorSysout ("domTree.onResolvePromise; ERROR " ++ err)%string :: trace t.
Proof.
  intros Hcb. unfold exec, promiseRejected, onRejected. run.
  rewrite Hcb. cbn. repeat split.
Qed.


(** ** Provider faults *)

(** C7 (as the code has it). When the provider's [getChildren] throws while
    a row is being expanded, [fetchChildren] catches the fault, reports it,
    and answers the empty array: [toggleRow] returns normally, no row is
    mounted (the row list keeps its length, the toggled row being marked
    opened), and no fetch is registered. *)
Theorem toggleRow_getChildren_fault_caught (t : DomTree) (p : Provider.t)
    (i : nat) (r : Row.t) (e : string) (forceOpen : bool) :
  nth_error (rows t) i = Some r ->
  Row.opened r = false ->
  Member.hasChildren (Row.repObject r) = true ->
  memberProviderMembers t (Member.value (Row.repObject r)) (Row.level r + 1) = None ->
  provider t = Some p ->
  fetchedChildren t = None ->
  Provider.getChildren p (Member.value (Row.repObject r)) = Throw e ->
  fst (toggleRow (Some (MemberRow i)) forceOpen t) = Ret None /\
  rows (exec (toggleRow (Some (MemberRow i)) forceOpen) t) =
    setNth i (Row.setOpened true r) (rows t) /\
  List.length (rows (exec (toggleRow (Some (MemberRow i)) forceOpen) t)) =
    List.length (rows t) /\
  thenCallbacks (exec (toggleRow (Some (MemberRow i)) forceOpen) t) =
    thenCallbacks t /\
  trace (exec (toggleRow (Some (MemberRow i)) forceOpen) t) =
    Sysout "DomTree.toggleRow" ::
    ErrorSysout ("domTree.fetchChildren; EXCEPTION " ++ e)%string :: trace t.
Proof.
  intros Hn Ho Hc Hhook Hp Hf Hthrow.
  destruct (memberRow_nth t i Hn) as [Hm Hg].
  assert (Hlen : forall (x : Row.t) (j : nat) (l : list Row.t),
             List.length (setNth j x l) = List.length l).
  { intros x j l. revert j. induction l as [|a l IH]; intros [|j]; simpl; auto. }
  unfold exec, toggleRow, getMembers, fetchChildren. run.
  unfold memberProviderMembers, getRowLevel in *.
  rewrite Hg, Hm, Ho, Hc, andb_false_r. cbn. rewrite Hn. cbn.
  rewrite Hhook, Hp, Hf. cbn. rewrite Hp. cbn. rewrite Hthrow. cbn.
  repeat split. apply Hlen.
Qed.

(** ** A fetch that settles late *)







(** The fulfilment callback: the value is stored, then the object is
    updated. *)
Lemma promiseFulfilled_registered (t : DomTree) (promise : nat) (object : Value)
    (value : list Value) :
  lookupCallback promise (thenCallbacks t) = Some object ->
  promiseFulfilled promise value t =
    updateObject object
      (setFetchedChildren (Some value)
         (setTrace (Sysout "domTree.resolvePromise; done, sync: false" :: trace t)
            (setThenCallbacks (dropCallback promise (thenCallbacks t)) t))).
Proof.
  intros Hcb. unfold promiseFulfilled, onFulfilled. run. rewrite Hcb. reflexivity.
Qed.


(** A fetch fulfilled after its row was removed (an ancestor was
    collapsed, or the table was rendered again): when the object is not the
    root and no row is bound to it, the miss is reported and the table is
    untouched. *)
Lemma promiseFulfilled_removed_row (t : DomTree) (inp : Input.t)
    (promise : nat) (object : Value) (value : list Value) :
  lookupCallback promise (thenCallbacks t) = Some object ->
  input t = Some inp ->
  looseEq (Input.object inp) object = false ->
  getRow object t = None ->
  fst (promiseFulfilled promise value t) = Ret tt /\
  element (exec (promiseFulfilled promise value) t) = element t /\
  fetchedChildren (exec (promiseFulfilled promise value) t) = Some value.
Proof.
  intros Hcb Hin Hroot Hrow.
  unfold exec. rewrite (@promiseFulfilled_registered t promise object value Hcb).
  unfold updateObject, doUpdateObject. run.
  unfold getRow in *. cbn. rewrite Hrow, Hin, Hroot.
  repeat split.
Qed.

(** ** Rendering mounts one row per member *)

Lemma replace_mounts_members (t t1 : DomTree) (container : list nat)
    (input : Input.t) (noExpand : bool) (members : list Member.t) :
  memberIterator (Input.object input)
    (setInput (Some input) (setParentNode (Some []) t)) = (Ret members, t1) ->
  replace container input noExpand t =
    (Ret tt, setElement (Some (map rowTag members)) t1) /\
  parentNode (exec (replace container input noExpand) t) = Some [] /\
  List.length (rows (exec (replace container input noExpand) t)) =
    List.length members.
Proof.
  intros Hit.
  assert (Hrun : replace container input noExpand t =
                 (Ret tt, setElement (Some (map rowTag members)) t1)).
  { unfold replace, clearNode.
    transitivity (append [] input true t);
      [destruct noExpand; [reflexivity | apply append_noExpand_irrelevant]|].
    unfold append. run. rewrite Hit. reflexivity. }
  split; [exact Hrun|].
  unfold exec. rewrite Hrun. cbn. split.
  - assert (H := keepsTable_getMembers (Input.object input) 0
                   (setInput (Some input) (setParentNode (Some []) t))).
    unfold memberIterator, bind in Hit.
    destruct (getMembers _ _ _) as [[ms|e] t2]; [|discriminate].
    destruct H as (_ & _ & Hpn & _). simpl in Hpn.
    destruct ms; injection Hit as <- <-; exact Hpn.
  - unfold rows. cbn. apply length_map.
Qed.

(** ** The sample widgets, step by step *)

Lemma rendered_rows : rows rendered = [rowA; rowB].
Proof. reflexivity. Qed.

Lemma pendingA_rows :
  rows pendingA = [Row.setSpinning true (Row.setOpened true rowA); rowB].
Proof. reflexivity. Qed.

(** Reflection mode on [{a: {x: 1}, b: 2}]: two root members, [a] with
    children and [b] without; expanding [a] mounts [x] right below it at
    level 1; collapsing it again restores the root rows. *)
Example reflected_rows :
  map (fun row => (Member.name (Row.repObject row), Row.level row,
                   Row.hasChildren row)) (rows reflected) =
    [("a", 0, true); ("b", 0, false)] /\
  map (fun row => (Member.name (Row.repObject row), Row.level row,
                   Row.hasChildren row))
      (rows (exec (toggleRow (Some (MemberRow 0)) false) reflected)) =
    [("a", 0, true); ("x", 1, false); ("b", 0, false)] /\
  rows (exec (toggleRow (Some (MemberRow 0)) false)
          (exec (toggleRow (Some (MemberRow 0)) false) reflected)) =
    rows reflected.
Proof. repeat split. Qed.

Lemma expandedA_rows :
  map (fun row => (rowValue row, Row.level row, rowState row)) (rows expandedA) =
    [(VObject 1, 0, Expanded); (VObject 10, 1, Collapsed);
     (VObject 11, 1, Collapsed); (VObject 2, 0, Collapsed)].
Proof. reflexivity. Qed.

(** ** Witnesses *)

(** Collapsing the expanded first row of [expandedA], whose two children
    follow it and precede the second root row. *)
Lemma toggleRow_collapse_removes_subtree_witness :
  exists before block after,
    rows expandedA = before ++ Row.setOpened true rowA :: block ++ after /\
    List.length before = 0 /\
    Forall (fun row => 0 < Row.level row) block /\
    match after with
    | [] => True
    | row :: _ => Row.level row <= 0
    end /\
    toggleRow (Some (MemberRow 0)) false expandedA =
      (Ret None,
       setElement
         (Some (before ++ Row.setOpened false (Row.setOpened true rowA) :: after))
         expandedA).
Proof.
  apply (@toggleRow_collapse_removes_subtree expandedA 0 (Row.setOpened true rowA));
    reflexivity.
Defined.

(** A forced open of the first row, once expanded and once pending. *)
Lemma toggleRow_forceOpen_idempotent_witness :
  toggleRow (Some (MemberRow 0)) true expandedA = (Ret None, expandedA) /\
  toggleRow (Some (MemberRow 0)) true pendingA = (Ret None, pendingA).
Proof.
  split.
  - apply (@toggleRow_forceOpen_idempotent expandedA 0 (Row.setOpened true rowA));
      [reflexivity | left; reflexivity].
  - apply (@toggleRow_forceOpen_idempotent pendingA 0
             (Row.setSpinning true (Row.setOpened true rowA)));
      [reflexivity | right; reflexivity].
Defined.

(** Toggling the row of object 10, a child without children. *)
Lemma toggleRow_leaf_noop_witness :
  Member.hasChildren (Row.repObject (rowTag
    (Member.mk 2 "grip" "dom" "memberRow-dom" "" 1 false (VObject 10) true))) = false /\
  toggleRow (Some (MemberRow 1)) false expandedA = (Ret None, expandedA).
Proof.
  split; [reflexivity|].
  apply (@toggleRow_leaf_noop expandedA 1
           (rowTag (Member.mk 2 "grip" "dom" "memberRow-dom" "" 1 false
                      (VObject 10) true)) false);
    reflexivity.
Defined.

(** Rendering object 1, whose children arrive asynchronously, as the root. *)
Lemma replace_pending_root_renders_no_rows_witness :
  let t := newDomTree (Some gripProvider) emptyHeap in
  let input := Input.mk false 0 (VObject 1) in
  fst (memberIterator (VObject 1) t) = Ret [] /\
  fst (replace [7] input false t) = Ret tt /\
  element (exec (replace [7] input false) t) = Some [] /\
  isEmpty (exec (replace [7] input false) t) = true /\
  trace (exec (replace [7] input false) t) = [] /\
  thenCallbacks (exec (replace [7] input false) t) = [(0, VObject 1)].
Proof.
  apply (@replace_pending_root_renders_no_rows
           (newDomTree (Some gripProvider) emptyHeap) gripProvider [7]
           (Input.mk false 0 (VObject 1)) false);
    reflexivity.
Defined.

(** Promise 0 is rejected while the first row is pending. *)
Lemma promiseRejected_logs_and_keeps_rows_witness :
  fst (promiseRejected 0 "timeout" pendingA) = Ret tt /\
  element (exec (promiseRejected 0 "timeout") pendingA) = element pendingA /\
  fetchedChildren (exec (promiseRejected 0 "timeout") pendingA) =
    fetchedChildren pendingA /\
  trace (exec (promiseRejected 0 "timeout") pendingA) =
    ErrorSysout ("domTree.onResolvePromise; ERROR " ++ "timeout")%string ::
    trace pendingA.
Proof.
  apply (@promiseRejected_logs_and_keeps_rows pendingA 0 (VObject 1) "timeout").
  reflexivity.
Defined.


(** Expanding the row of object 1 over the failing provider. *)
Lemma toggleRow_getChildren_fault_caught_witness :
  fst (toggleRow (Some (MemberRow 0)) false brokenRendered) = Ret None /\
  rows (exec (toggleRow (Some (MemberRow 0)) false) brokenRendered) =
    setNth 0 (Row.setOpened true rowA) (rows brokenRendered) /\
  List.length (rows (exec (toggleRow (Some (MemberRow 0)) false) brokenRendered)) =
    List.length (rows brokenRendered) /\
  thenCallbacks (exec (toggleRow (Some (MemberRow 0)) false) brokenRendered) =
    thenCallbacks brokenRendered /\
  trace (exec (toggleRow (Some (MemberRow 0)) false) brokenRendered) =
    Sysout "DomTree.toggleRow" ::
    ErrorSysout ("domTree.fetchChildren; EXCEPTION " ++ "connection closed")%string ::
    trace brokenRendered.
Proof.
  apply (@toggleRow_getChildren_fault_caught brokenRendered brokenProvider 0 rowA
           "connection closed" false);
    reflexivity.
Defined.

(** ** Where the code departs from the specification *)

(** C3, counterexample. The children of the first row are pending on
    promise 0; the promise is rejected; the row is still marked opened and
    spinning, not collapsed. *)
Lemma rejected_fetch_row_stays_pending :
  lookupCallback 0 (thenCallbacks pendingA) = Some (VObject 1) /\
  option_map rowState (nth_error (rows pendingA) 0) = Some PendingFetch /\
  option_map rowState
    (nth_error (rows (exec (promiseRejected 0 "timeout") pendingA)) 0) =
    Some PendingFetch /\
  option_map rowState
    (nth_error (rows (exec (promiseRejected 0 "timeout") pendingA)) 0) <>
    Some Collapsed.
Proof. repeat split; try reflexivity. discriminate. Qed.

(** C5. The table shows the two root rows of object 0; [updateObject] on
    the root derives the two members afresh and adds a row for each after
    the rows already mounted: the table then has four member rows, every
    root row twice, not two. *)
Lemma updateObject_root_count_differs :
  Input.object rootInput = VObject 0 /\
  List.length (rows rendered) = 2 /\
  (exists members t1,
     getMembers (VObject 0) 0 rendered = (Ret (MembersArray members), t1) /\
     List.length members = 2 /\
     List.length (rows (exec (updateObject (VObject 0)) rendered)) <>
       List.length members) /\
  map rowValue (rows (exec (updateObject (VObject 0)) rendered)) =
    [VObject 1; VObject 2; VObject 1; VObject 2].
Proof.
  repeat split.
  exists [Member.mk 2 "grip" "dom" "memberRow-dom" "" 0 true (VObject 1) true;
          Member.mk 3 "grip" "dom" "memberRow-dom" "" 0 true (VObject 2) true],
         (snd (getMembers (VObject 0) 0 rendered)).
  split; [reflexivity|]. split; [reflexivity|]. discriminate.
Qed.

(** C7, counterexample. The label lookup for the only child of object 2
    throws: [toggleRow] on the row of object 2 throws the same exception to
    its caller, nothing is logged, and the row is left marked opened. *)
Lemma toggleRow_getLabel_fault_propagates :
  option_map rowValue (nth_error (rows brokenRendered) 1) = Some (VObject 2) /\
  Provider.getChildren brokenProvider (VObject 2) =
    Ret (Provider.Sequence [VObject 5]) /\
  Provider.getLabel brokenProvider (VObject 5) = Throw "label fault" /\
  fst (toggleRow (Some (MemberRow 1)) false brokenRendered) = Throw "label fault" /\
  trace (exec (toggleRow (Some (MemberRow 1)) false) brokenRendered) = [] /\
  map rowState (rows (exec (toggleRow (Some (MemberRow 1)) false) brokenRendered)) =
    [Collapsed; Expanded].
Proof. repeat split. Qed.

(** C1. The children of the first row (object 1) are pending on promise 0;
    the row is collapsed; the promise is then fulfilled with objects 10 and
    11.  At that moment no row is mounted, but the children stay in
    [fetchedChildren]: when the second row (object 2, which has no children
    according to the provider) is toggled next, [getMembers] takes them
    instead of asking the provider, and rows for objects 10 and 11 are
    mounted below the row of object 2. *)
Theorem stale_children_mounted_under_next_row :
  map rowState (rows pendingA) = [PendingFetch; Collapsed] /\
  thenCallbacks pendingA = [(0, VObject 1)] /\
  map rowState (rows collapsedA) = [Collapsed; Collapsed] /\
  map (fun row => (rowValue row, Row.level row)) (rows resolvedA) =
    [(VObject 1, 0); (VObject 2, 0)] /\
  fetchedChildren resolvedA = Some [VObject 10; VObject 11] /\
  Provider.getChildren gripProvider (VObject 2) = Ret (Provider.Sequence []) /\
  map (fun row => (rowValue row, Row.level row)) (rows expandedB) =
    [(VObject 1, 0); (VObject 2, 0); (VObject 10, 1); (VObject 11, 1)].
Proof. repeat split. Qed.

(** C4. No row is bound to object 99.  [expandObject] reports the miss and
    returns, [expandMember] returns, but [collapseObject] dereferences the
    missing row and throws a TypeError to its caller. *)
Theorem collapseObject_throws_on_lookup_miss :
  getRow (VObject 99) rendered = None /\
  expandObject (VObject 99) rendered =
    (Ret None,
     setTrace [ErrorSysout "domTree.expandObject; ERROR no such object"] rendered) /\
  expandMember (createMember 99 "dom" "x" (VObject 99) 0 true) rendered =
    (Ret None, rendered) /\
  collapseObject (VObject 99) rendered = (Throw "TypeError: row is null", rendered).
Proof. repeat split. Qed.

(** C6. A render with [noExpand] unset and an input that is not an array:
    the first root row has children, yet after [replace] it is still
    collapsed; the render equals the one made with [noExpand] set, because
    the row [append] toggles, [this.element.firstChild.firstChild], is the
    sizer row. *)
Theorem append_does_not_expand_first_member_row :
  Input.isArray rootInput = false /\
  fst (replace [] rootInput false (newDomTree (Some gripProvider) emptyHeap)) = Ret tt /\
  option_map Row.hasChildren (nth_error (rows autoRendered) 0) = Some true /\
  map rowState (rows autoRendered) = [Collapsed; Collapsed] /\
  autoRendered = rendered.
Proof. repeat split. Qed.

(** * Further properties of the widget *)

Unset Implicit Arguments.

(** ** Members built from a provider or by reflection *)

Lemma setNextMember_twice (a b : nat) (t : DomTree) :
  setNextMember a (setNextMember b t) = setNextMember a t.
Proof. reflexivity. Qed.

(** The loop over the provider's children, when no call faults. *)
Lemma createMembers_run (p : Provider.t) (hc : Value -> bool)
    (label : Value -> string) (level : nat) (children : list Value) :
  (forall child, In child children ->
     Provider.hasChildren p child = Ret (hc child) /\
     Provider.getLabel p child = Ret (label child)) ->
  forall members t,
    createMembers p children level members t =
      (Ret (members ++ providerMembers hc label (nextMember t) children level),
       setNextMember (nextMember t + List.length children) t).
Proof.
  induction children as [|child rest IH]; intros Hok members t.
  - simpl. rewrite app_nil_r, Nat.add_0_r. destruct t; reflexivity.
  - destruct (Hok child (or_introl eq_refl)) as [Hh Hl].
    simpl. run. rewrite Hh, Hl.
    rewrite IH by (intros c Hc; apply Hok; right; exact Hc).
    cbn. rewrite <- app_assoc, <- plus_n_Sm. reflexivity.
Qed.

Lemma providerMembers_values hc label id children level :
  map Member.value (providerMembers hc label id children level) = children.
Proof.
  revert id. induction children as [|c rest IH]; intros id; simpl;
    [|rewrite IH]; reflexivity.
Qed.

Lemma providerMembers_names hc label id children level :
  map Member.name (providerMembers hc label id children level) =
    map label children.
Proof.
  revert id. induction children as [|c rest IH]; intros id; simpl;
    [|rewrite IH]; reflexivity.
Qed.

Lemma providerMembers_flags hc label id children level :
  map Member.hasChildren (providerMembers hc label id children level) =
    map hc children.
Proof.
  revert id. induction children as [|c rest IH]; intros id; simpl;
    [|rewrite IH]; reflexivity.
Qed.

Lemma providerMembers_shape hc label id children level :
  Forall (fun m => Member.level m = level /\ Member.provider m = true /\
                   Member.open m = "" /\ Member.type m = "dom")
    (providerMembers hc label id children level).
Proof.
  revert id. induction children as [|c rest IH]; intros id; simpl;
    constructor; [repeat split | apply IH].
Qed.

(** [getMembers] over a provider that hands back a sequence, no call
    faulting. *)
Lemma getMembers_sequence_run (t : DomTree) (p : Provider.t) (object : Value)
    (level : nat) (children : list Value) (hc : Value -> bool)
    (label : Value -> string) :
  memberProviderMembers t object level = None ->
  provider t = Some p ->
  fetchedChildren t = None ->
  Provider.getChildren p object = Ret (Provider.Sequence children) ->
  (forall child, In child children ->
     Provider.hasChildren p child = Ret (hc child) /\
     Provider.getLabel p child = Ret (label child)) ->
  getMembers object level t =
    (Ret (MembersArray (providerMembers hc label (nextMember t) children level)),
     setNextMember (nextMember t + List.length children)
       (setFetchedChildren None t)).
Proof.
  intros Hhook Hp Hf Hc Hok.
  unfold getMembers, fetchChildren. run. rewrite Hhook, Hp, Hf. cbn.
  rewrite Hp. cbn. rewrite Hc. cbn.
  rewrite (createMembers_run p hc label level children Hok). reflexivity.
Qed.


(** [getMembers] over a provider that hands back a promise. *)
Lemma getMembers_pending_run (t : DomTree) (p : Provider.t) (object : Value)
    (level : nat) :
  memberProviderMembers t object level = None ->
  provider t = Some p ->
  fetchedChildren t = None ->
  Provider.getChildren p object = Ret Provider.Pending ->
  getMembers object level t =
    (Ret (MembersPromise (nextPromise t)),
     setFetchedChildren None
       (setThenCallbacks ((nextPromise t, object) :: thenCallbacks t)
          (setNextPromise (S (nextPromise t)) t))).
Proof.
  intros Hhook Hp Hf Hc.
  unfold getMembers, fetchChildren, resolvePromise. run. rewrite Hhook, Hp, Hf. cbn.
  rewrite Hp. cbn. rewrite Hc. reflexivity.
Qed.

(** X1. When no member provider answers, no children received earlier are
    stored in [fetchedChildren], the provider's [getChildren] hands back a
    sequence and its [hasChildren] and [getLabel] answer for every child,
    [getMembers] returns one member per child, in the order of the
    children: bound to the child, named by its label, flagged as the
    provider says, at the requested level and tied to the provider.
    Nothing is logged, no fetch is registered and the table is not
    touched. *)
Theorem getMembers_one_member_per_child (t : DomTree) (p : Provider.t)
    (object : Value) (level : nat) (children : list Value)
    (hc : Value -> bool) (label : Value -> string) :
  memberProviderMembers t object level = None ->
  provider t = Some p ->
  fetchedChildren t = None ->
  Provider.getChildren p object = Ret (Provider.Sequence children) ->
  (forall child, In child children ->
     Provider.hasChildren p child = Ret (hc child) /\
     Provider.getLabel p child = Ret (label child)) ->
  exists members,
    fst (getMembers object level t) = Ret (MembersArray members) /\
    map Member.value members = children /\
    map Member.name members = map label children /\
    map Member.hasChildren members = map hc children /\
    Forall (fun m => Member.level m = level /\ Member.provider m = true /\
                     Member.open m = "" /\ Member.type m = "dom") members /\
    trace (exec (getMembers object level) t) = trace t /\
    thenCallbacks (exec (getMembers object level) t) = thenCallbacks t /\
    element (exec (getMembers object level) t) = element t.
Proof.
  intros Hhook Hp Hf Hc Hok.
  exists (providerMembers hc label (nextMember t) children level).
  unfold exec.
  rewrite (getMembers_sequence_run t p object level children hc label
             Hhook Hp Hf Hc Hok). cbn.
  repeat split.
  - apply providerMembers_values.
  - apply providerMembers_names.
  - apply providerMembers_flags.
  - apply providerMembers_shape.
Qed.

(** The enumeration of properties in reflection mode. *)
Lemma reflection_run (level : nat) (props : list (string * Value)) :
  forall members t,
    getObjectProperties props (propertyMember level) members t =
      (Ret (members ++ reflectionMembers (heap t) (nextMember t) props level),
       setNextMember (nextMember t + List.length props) t).
Proof.
  induction props as [|[prop v] rest IH]; intros members t.
  - simpl. rewrite app_nil_r, Nat.add_0_r. destruct t; reflexivity.
  - simpl. unfold propertyMember at 1. run. rewrite IH. cbn.
    rewrite <- app_assoc, <- plus_n_Sm. reflexivity.
Qed.

Lemma reflectionMembers_props heap id props level :
  map (fun m => (Member.name m, Member.value m))
      (reflectionMembers heap id props level) = props.
Proof.
  revert id. induction props as [|[prop v] rest IH]; intros id; simpl;
    [|rewrite IH]; reflexivity.
Qed.

Lemma reflectionMembers_shape heap id props level :
  Forall (fun m =>
            Member.level m = level /\ Member.provider m = false /\
            Member.open m = "" /\
            Member.hasChildren m =
              typeofObject (Member.value m) && hasProperties heap (Member.value m))
    (reflectionMembers heap id props level).
Proof.
  revert id. induction props as [|[prop v] rest IH]; intros id; simpl;
    constructor; [repeat split | apply IH].
Qed.

(** X2. Without provider (reflection mode) and when no member provider
    answers, [getMembers] returns an array, one member per enumerable
    property of the object, in enumeration order, named by the property and
    bound to its value, at the requested level; a member is flagged as
    having children exactly when its value is of type object and has an
    enumerable property of its own.  Nothing is logged and neither the
    table nor [fetchedChildren] is touched. *)
Theorem getMembers_reflection (t : DomTree) (object : Value) (level : nat) :
  memberProviderMembers t object level = None ->
  provider t = None ->
  exists members,
    fst (getMembers object level t) = Ret (MembersArray members) /\
    map (fun m => (Member.name m, Member.value m)) members =
      forIn (heap t) object /\
    Forall (fun m =>
              Member.level m = level /\ Member.provider m = false /\
              Member.open m = "" /\
              Member.hasChildren m =
                typeofObject (Member.value m) &&
                hasProperties (heap t) (Member.value m)) members /\
    trace (exec (getMembers object level) t) = trace t /\
    fetchedChildren (exec (getMembers object level) t) = fetchedChildren t /\
    element (exec (getMembers object level) t) = element t.
Proof.
  intros Hhook Hp.
  exists (reflectionMembers (heap t) (nextMember t) (forIn (heap t) object) level).
  assert (Hrun : getMembers object level t =
            (Ret (MembersArray
                    (reflectionMembers (heap t) (nextMember t)
                       (forIn (heap t) object) level)),
             setNextMember (nextMember t + List.length (forIn (heap t) object)) t)).
  { unfold getMembers. run. rewrite Hhook, Hp. rewrite reflection_run. reflexivity. }
  unfold exec. rewrite Hrun. cbn. repeat split.
  - apply reflectionMembers_props.
  - apply reflectionMembers_shape.
Qed.

(** A string has no children, whatever it enumerates; neither has a
    primitive or an object without enumerable property. *)
Lemma hasProperties_only_objects (heap : Heap) (v : Value) :
  typeofObject v && hasProperties heap v = true <->
  exists ref, v = VObject ref /\ heap ref <> [].
Proof.
  split.
  - destruct v as [| |n|s|ref]; simpl; try discriminate.
    intros H. exists ref. split; [reflexivity|].
    destruct (heap ref); [discriminate | discriminate].
  - intros (ref & -> & Hne). simpl. destruct (heap ref); [contradiction | reflexivity].
Qed.

(** ** Row lists around one row *)

Lemma rows_setElement (l : list Row.t) (t : DomTree) :
  rows (setElement (Some l) t) = l.
Proof. reflexivity. Qed.

Lemma setNth_split (x : Row.t) (l : list Row.t) :
  forall i r, nth_error l i = Some r ->
  setNth i x l = firstn i l ++ x :: skipn (S i) l.
Proof.
  induction l as [|a l IH]; intros [|i] r H; simpl in *; try discriminate.
  - reflexivity.
  - f_equal. exact (IH i r H).
Qed.

Lemma around_nth {A} (a : list A) (x : A) (b : list A) :
  nth_error (a ++ x :: b) (List.length a) = Some x /\
  firstn (List.length a) (a ++ x :: b) = a /\
  skipn (S (List.length a)) (a ++ x :: b) = b.
Proof.
  induction a as [|y a IH]; simpl.
  - repeat split.
  - destruct IH as (H1 & H2 & H3). repeat split; [exact H1 | f_equal; exact H2 | exact H3].
Qed.

Lemma insertRows_after_setNth (x : Row.t) (new l : list Row.t) (i : nat) (r : Row.t) :
  nth_error l i = Some r ->
  insertRows new (AfterRow i) (setNth i x l) =
    firstn i l ++ x :: new ++ skipn (S i) l.
Proof.
  intros H. destruct (nth_error_split_at _ _ H) as [_ Hlen].
  rewrite (setNth_split x _ _ _ H). unfold insertRows.
  set (a := firstn i l) in *. set (b := skipn (S i) l).
  rewrite <- Hlen.
  destruct (around_nth a x b) as (_ & H2 & H3).
  rewrite H3.
  replace (firstn (S (List.length a)) (a ++ x :: b)) with (a ++ [x]).
  - rewrite <- app_assoc. reflexivity.
  - clear. induction a as [|y a IH]; simpl; [reflexivity | f_equal; exact IH].
Qed.

Lemma nth_error_setNth_same (x : Row.t) (l : list Row.t) :
  forall i r, nth_error l i = Some r -> nth_error (setNth i x l) i = Some x.
Proof.
  induction l as [|a l IH]; intros [|i] r H; simpl in *; try discriminate.
  - reflexivity.
  - exact (IH i r H).
Qed.

Lemma removeSubtree_deeper (level : nat) (block rest : list Row.t) :
  Forall (fun row => level < Row.level row) block ->
  removeSubtree level (block ++ rest) = removeSubtree level rest.
Proof.
  induction 1 as [|row block Hrow _ IH]; simpl; [reflexivity|].
  unfold getRowLevel. destruct (Nat.leb_spec (Row.level row) level); [lia | exact IH].
Qed.

Lemma removeSubtree_boundary (level : nat) (rest : list Row.t) :
  (forall next, nth_error rest 0 = Some next -> Row.level next <= level) ->
  removeSubtree level rest = rest.
Proof.
  destruct rest as [|next rest]; simpl; [reflexivity|].
  intros H. specialize (H next eq_refl). unfold getRowLevel.
  destruct (Nat.leb_spec (Row.level next) level); [reflexivity | lia].
Qed.

Lemma setOpened_roundtrip (r : Row.t) :
  Row.opened r = false -> Row.setOpened false (Row.setOpened true r) = r.
Proof. destruct r; simpl; intros ->; reflexivity. Qed.

(** ** Expanding a collapsed row *)

#[local] Arguments getMembers : simpl never.
#[local] Arguments skipn : simpl never.
#[local] Arguments firstn : simpl never.
#[local] Arguments setNth : simpl never.

(** [toggleRow] on a collapsed row of an expandable member, in terms of what
    fetching its members yields. *)
Lemma toggleRow_collapsed_run (t : DomTree) (i : nat) (r : Row.t) (forceOpen : bool) :
  nth_error (rows t) i = Some r ->
  Row.opened r = false ->
  Member.hasChildren (Row.repObject r) = true ->
  toggleRow (Some (MemberRow i)) forceOpen t =
    match getMembers (Member.value (Row.repObject r)) (Row.level r + 1)
            (setElement (Some (setNth i (Row.setOpened true r) (rows t))) t) with
    | (Throw e, t1) => (Throw e, t1)
    | (Ret (MembersArray members), t1) =>
        (Ret None,
         setElement
           (Some (firstn i (rows t) ++ Row.setOpened true r ::
                  map rowTag members ++ skipn (S i) (rows t)))
           (setTrace (Sysout "DomTree.toggleRow" :: trace t1) t1))
    | (Ret (MembersPromise promise), t1) =>
        (Ret (Some promise),
         setElement
           (Some (setNth i (Row.setSpinning true (Row.setOpened true r)) (rows t)))
           (setTrace (Sysout "DomTree.toggleRow" :: trace t1) t1))
    end.
Proof.
  intros Hn Ho Hc. destruct (memberRow_nth t i Hn) as [Hm Hg].
  set (t0 := setElement (Some (setNth i (Row.setOpened true r) (rows t))) t).
  pose proof (getMembers_element (Member.value (Row.repObject r)) (Row.level r + 1) t0)
    as Hel.
  unfold toggleRow. run. rewrite Hg, Hm, Ho, Hc, andb_false_r. cbn.
  rewrite Hn. fold t0. unfold getRowLevel.
  destruct (getMembers (Member.value (Row.repObject r)) (Row.level r + 1) t0)
    as [[[members|promise]|e] t1]; cbn [snd] in Hel; [| |reflexivity].
  - assert (Hrows : rows t1 = setNth i (Row.setOpened true r) (rows t)).
    { unfold rows at 1. rewrite Hel. reflexivity. }
    destruct members as [|m ms].
    + f_equal. cbn [map app].
      rewrite <- (setNth_split (Row.setOpened true r) _ _ _ Hn).
      destruct t1; cbn in *. rewrite Hel. reflexivity.
    + f_equal. f_equal. f_equal.
      change (rows (setTrace (Sysout "DomTree.toggleRow" :: trace t1) t1))
        with (rows t1).
      rewrite Hrows. apply (insertRows_after_setNth _ _ _ _ _ Hn).
  - change (rows (setTrace (Sysout "DomTree.toggleRow" :: trace t1) t1))
      with (rows t1).
    assert (Hrows : rows t1 = setNth i (Row.setOpened true r) (rows t)).
    { unfold rows at 1. rewrite Hel. reflexivity. }
    rewrite Hrows, (nth_error_setNth_same _ _ _ _ Hn).
    f_equal. f_equal. f_equal.
    clear - Hn. revert i Hn. generalize (rows t) as l. unfold setNth.
    induction l as [|a l IH]; intros [|i] H; simpl in *; try discriminate;
      [reflexivity | f_equal; exact (IH i H)].
Qed.

Lemma rowTag_fresh (level : nat) (members : list Member.t) :
  Forall (fun m => Member.level m = level /\ Member.provider m = true /\
                   Member.open m = "" /\ Member.type m = "dom") members ->
  Forall (fun row => Row.level row = level /\ rowState row = Collapsed)
    (map rowTag members).
Proof.
  induction 1 as [|m ms (Hl & _ & Hopen & _) _ IH]; simpl; constructor;
    [|exact IH].
  unfold rowState, rowTag. simpl. rewrite Hopen. split; [exact Hl | reflexivity].
Qed.

(** X3. [toggleRow] on a collapsed row whose member has children, when no
    member provider answers, no children received earlier are stored in
    [fetchedChildren], the provider hands the children back at once and its
    [hasChildren] and [getLabel] answer for every child: one row per child
    is mounted right below the row, in the order of the children, one level
    deeper and collapsed; the row is marked opened; the rows above it and
    the rows that followed it are kept as they were. *)
Theorem toggleRow_expand_mounts_children (t : DomTree) (p : Provider.t)
    (i : nat) (r : Row.t) (children : list Value) (hc : Value -> bool)
    (label : Value -> string) (forceOpen : bool) :
  nth_error (rows t) i = Some r ->
  Row.opened r = false ->
  Member.hasChildren (Row.repObject r) = true ->
  memberProviderMembers t (rowValue r) (Row.level r + 1) = None ->
  provider t = Some p ->
  fetchedChildren t = None ->
  Provider.getChildren p (rowValue r) = Ret (Provider.Sequence children) ->
  (forall child, In child children ->
     Provider.hasChildren p child = Ret (hc child) /\
     Provider.getLabel p child = Ret (label child)) ->
  exists members,
    fst (toggleRow (Some (MemberRow i)) forceOpen t) = Ret None /\
    rows (exec (toggleRow (Some (MemberRow i)) forceOpen) t) =
      firstn i (rows t) ++ Row.setOpened true r ::
      map rowTag members ++ skipn (S i) (rows t) /\
    map Member.value members = children /\
    map Member.hasChildren members = map hc children /\
    Forall (fun row => Row.level row = Row.level r + 1 /\
                       rowState row = Collapsed) (map rowTag members).
Proof.
  intros Hn Ho Hc Hhook Hp Hf Hch Hok. unfold rowValue in *.
  set (t0 := setElement (Some (setNth i (Row.setOpened true r) (rows t))) t).
  exists (providerMembers hc label (nextMember t) children (Row.level r + 1)).
  unfold exec. rewrite (toggleRow_collapsed_run t i r forceOpen Hn Ho Hc). fold t0.
  rewrite (getMembers_sequence_run t0 p _ _ children hc label Hhook Hp Hf Hch Hok).
  cbn [fst snd]. repeat split.
  - apply providerMembers_values.
  - apply providerMembers_flags.
  - apply rowTag_fresh. apply providerMembers_shape.
Qed.

(** X4. [toggleRow] on a collapsed row whose member has children, when no
    member provider answers, no children received earlier are stored in
    [fetchedChildren] and the provider's [getChildren] returns a promise:
    nothing is mounted, the row is marked opened and spinning (pending),
    every other row is kept, the promise is returned and exactly one
    callback is registered for it, for the value of the row. *)
Theorem toggleRow_pending_marks_row (t : DomTree) (p : Provider.t) (i : nat)
    (r : Row.t) (forceOpen : bool) :
  nth_error (rows t) i = Some r ->
  Row.opened r = false ->
  Member.hasChildren (Row.repObject r) = true ->
  memberProviderMembers t (rowValue r) (Row.level r + 1) = None ->
  provider t = Some p ->
  fetchedChildren t = None ->
  Provider.getChildren p (rowValue r) = Ret Provider.Pending ->
  fst (toggleRow (Some (MemberRow i)) forceOpen t) = Ret (Some (nextPromise t)) /\
  rows (exec (toggleRow (Some (MemberRow i)) forceOpen) t) =
    firstn i (rows t) ++ Row.setSpinning true (Row.setOpened true r) ::
    skipn (S i) (rows t) /\
  rowState (Row.setSpinning true (Row.setOpened true r)) = PendingFetch /\
  thenCallbacks (exec (toggleRow (Some (MemberRow i)) forceOpen) t) =
    (nextPromise t, rowValue r) :: thenCallbacks t /\
  nextPromise (exec (toggleRow (Some (MemberRow i)) forceOpen) t) =
    S (nextPromise t).
Proof.
  intros Hn Ho Hc Hhook Hp Hf Hch. unfold rowValue in *.
  set (t0 := setElement (Some (setNth i (Row.setOpened true r) (rows t))) t).
  unfold exec. rewrite (toggleRow_collapsed_run t i r forceOpen Hn Ho Hc). fold t0.
  rewrite (getMembers_pending_run t0 p _ _ Hhook Hp Hf Hch).
  cbn [fst snd]. repeat split.
  unfold rows at 1. cbn. apply (setNth_split _ _ _ _ Hn).
Qed.

(** ** Levels *)

Lemma createMembers_levels (p : Provider.t) (level : nat) (children : list Value) :
  forall acc t members t',
    createMembers p children level acc t = (Ret members, t') ->
    Forall (fun m => Member.level m = level) acc ->
    Forall (fun m => Member.level m = level) members.
Proof.
  induction children as [|child rest IH]; intros acc t members t' H Hacc.
  - simpl in H. injection H as <- _. exact Hacc.
  - simpl in H. revert H. run.
    destruct (Provider.hasChildren p child) as [b|e]; [|discriminate].
    destruct (Provider.getLabel p child) as [name|e]; [|discriminate].
    intros H. apply (IH _ _ _ _ H).
    apply Forall_app. split; [exact Hacc|]. constructor; [reflexivity | constructor].
Qed.

Lemma getMembers_levels_run (t t' : DomTree) (object : Value) (level : nat)
    (members : list Member.t) :
  memberProviderMembers t object level = None ->
  getMembers object level t = (Ret (MembersArray members), t') ->
  Forall (fun m => Member.level m = level) members.
Proof.
  intros Hhook. unfold getMembers. run. rewrite Hhook.
  destruct (provider t) as [p|].
  - assert (Hloop : forall children t1,
              (let (o0, t2) := createMembers p children level []
                                 (setFetchedChildren None t1) in
               match o0 with
               | Ret a0 => (Ret (MembersArray a0), t2)
               | Throw e => (Throw e, t2)
               end) = (Ret (MembersArray members), t') ->
              Forall (fun m => Member.level m = level) members).
    { intros children t1.
      pose proof (createMembers_levels p level children [] (setFetchedChildren None t1))
        as Hl.
      destruct (createMembers p children level [] (setFetchedChildren None t1))
        as [[ms|e] t2]; cbn; [|discriminate].
      intros H. injection H as <- _. apply (Hl ms t2 eq_refl). constructor. }
    destruct (fetchedChildren t) as [children|].
    + apply Hloop.
    + destruct (fetchChildren object t) as [[[children|promise]|e] t1]; cbn;
        try discriminate. apply Hloop.
  - rewrite reflection_run. cbn. intros H. injection H as <- _.
    pose proof (reflectionMembers_shape (heap t) (nextMember t)
                  (forIn (heap t) object) level) as Hs.
    eapply Forall_impl; [|exact Hs]. intros m (Hl & _). exact Hl.
Qed.

(** X5. Every member that [getMembers] builds itself (from the provider,
    from stored children or by reflection) carries the level it was asked
    for, whatever the provider answers. *)
Theorem getMembers_levels (t : DomTree) (object : Value) (level : nat)
    (members : list Member.t) :
  memberProviderMembers t object level = None ->
  fst (getMembers object level t) = Ret (MembersArray members) ->
  Forall (fun m => Member.level m = level) members.
Proof.
  intros Hhook Hfst.
  destruct (getMembers object level t) as [o t'] eqn:Hrun.
  cbn in Hfst. subst o.
  exact (getMembers_levels_run t t' object level members Hhook Hrun).
Qed.

(** ** Expand, then collapse *)

Lemma toggleRow_leaf_run (t : DomTree) (i : nat) (r : Row.t) (forceOpen : bool) :
  nth_error (rows t) i = Some r ->
  Row.opened r = false ->
  Member.hasChildren (Row.repObject r) = false ->
  toggleRow (Some (MemberRow i)) forceOpen t = (Ret None, t).
Proof.
  intros Hn Ho Hc. destruct (memberRow_nth t i Hn) as [Hm Hg].
  unfold toggleRow, bind, get. rewrite Hg, Hm, Ho, Hc, andb_false_r. reflexivity.
Qed.

Lemma firstn_around (l : list Row.t) (i : nat) (r x : Row.t) (mid : list Row.t) :
  nth_error l i = Some r ->
  nth_error (firstn i l ++ x :: mid ++ skipn (S i) l) i = Some x /\
  firstn i (firstn i l ++ x :: mid ++ skipn (S i) l) = firstn i l /\
  skipn (S i) (firstn i l ++ x :: mid ++ skipn (S i) l) = mid ++ skipn (S i) l.
Proof.
  intros H. destruct (nth_error_split_at _ _ H) as [_ Hlen].
  pose proof (around_nth (firstn i l) x (mid ++ skipn (S i) l)) as Ha.
  rewrite Hlen in Ha. exact Ha.
Qed.

(** Two toggles of a collapsed row, the first of which returned without a
    promise. *)
Lemma toggleRow_twice_run (t : DomTree) (i : nat) (r : Row.t) :
  nth_error (rows t) i = Some r ->
  Row.opened r = false ->
  memberProviderMembers t (rowValue r) (Row.level r + 1) = None ->
  (forall next, nth_error (rows t) (S i) = Some next ->
                Row.level next <= Row.level r) ->
  fst (toggleRow (Some (MemberRow i)) false t) = Ret None ->
  option_map Row.hasChildren
    (nth_error (rows (exec (toggleRow (Some (MemberRow i)) false) t)) i) =
    Some (Row.hasChildren r) /\
  fst (toggleRow (Some (MemberRow i)) false
         (exec (toggleRow (Some (MemberRow i)) false) t)) = Ret None /\
  rows (exec (toggleRow (Some (MemberRow i)) false)
          (exec (toggleRow (Some (MemberRow i)) false) t)) = rows t.
Proof.
  intros Hn Ho Hhook Hnext. unfold exec, rowValue in *.
  destruct (Member.hasChildren (Row.repObject r)) eqn:Hc.
  2:{ rewrite (toggleRow_leaf_run t i r false Hn Ho Hc). cbn [fst snd].
      rewrite (toggleRow_leaf_run t i r false Hn Ho Hc), Hn. intros _.
      repeat split. }
  rewrite (toggleRow_collapsed_run t i r false Hn Ho Hc).
  set (t0 := setElement (Some (setNth i (Row.setOpened true r) (rows t))) t).
  pose proof (fun ms t1 => getMembers_levels_run t0 t1
                (Member.value (Row.repObject r)) (Row.level r + 1) ms Hhook) as Hlev.
  destruct (getMembers (Member.value (Row.repObject r)) (Row.level r + 1) t0)
    as [[[members|promise]|e] t1]; cbn [fst snd]; try discriminate.
  intros _. specialize (Hlev members t1 eq_refl).
  set (t' := setElement _ _).
  destruct (firstn_around (rows t) i r (Row.setOpened true r) (map rowTag members) Hn)
    as (Hn' & Hfirst & Hskip).
  assert (Hrows' : rows t' =
            firstn i (rows t) ++ Row.setOpened true r ::
            map rowTag members ++ skipn (S i) (rows t)) by reflexivity.
  rewrite <- Hrows' in Hn', Hfirst, Hskip.
  rewrite (toggleRow_opened t' i false Hn' eq_refl). cbn [fst snd].
  split; [rewrite Hn'; reflexivity|].
  split; [reflexivity|]. rewrite rows_setElement.
  rewrite Hfirst, Hskip, (setOpened_roundtrip r Ho).
  rewrite removeSubtree_deeper.
  - rewrite removeSubtree_boundary.
    + symmetry. apply (nth_error_split_at _ _ Hn).
    + intros next Hnx. apply Hnext. rewrite nth_error_skipn in Hnx.
      rewrite Nat.add_0_r in Hnx. exact Hnx.
  - clear - Hlev. induction Hlev as [|m ms Hm _ IH]; simpl; constructor;
      [|exact IH].
    unfold getRowLevel. simpl. lia.
Qed.

(** X6. Expanding a collapsed row and collapsing it again gives back the
    row list as it was (same rows, same members, same order), provided the
    expansion returned without a promise and the row that follows is not
    deeper than the toggled one. *)
Theorem toggleRow_expand_collapse_restores (t : DomTree) (i : nat) (r : Row.t) :
  nth_error (rows t) i = Some r ->
  Row.opened r = false ->
  memberProviderMembers t (rowValue r) (Row.level r + 1) = None ->
  (forall next, nth_error (rows t) (S i) = Some next ->
                Row.level next <= Row.level r) ->
  fst (toggleRow (Some (MemberRow i)) false t) = Ret None ->
  fst (toggleRow (Some (MemberRow i)) false
         (exec (toggleRow (Some (MemberRow i)) false) t)) = Ret None /\
  rows (exec (toggleRow (Some (MemberRow i)) false)
          (exec (toggleRow (Some (MemberRow i)) false) t)) = rows t.
Proof.
  intros Hn Ho Hhook Hnext Hfirst.
  destruct (toggleRow_twice_run t i r Hn Ho Hhook Hnext Hfirst) as (_ & Hsecond & Hrows).
  split; [exact Hsecond | exact Hrows].
Qed.

(** ** What toggleRow never touches *)


Lemma firstn_setNth (x : Row.t) (l : list Row.t) (i : nat) (r : Row.t) :
  nth_error l i = Some r -> firstn i (setNth i x l) = firstn i l.
Proof.
  intros H. rewrite (setNth_split x l i r H).
  destruct (firstn_around l i r x [] H) as (_ & Hf & _). exact Hf.
Qed.

(** X7. Whatever happens in [toggleRow] (collapse, expansion, pending
    fetch, provider fault), the rows above the toggled row are left exactly
    as they were and the toggled row stays bound to its member. *)
Theorem toggleRow_keeps_rows_above (t : DomTree) (i : nat) (forceOpen : bool) :
  firstn i (rows (exec (toggleRow (Some (MemberRow i)) forceOpen) t)) =
    firstn i (rows t) /\
  option_map Row.repObject
    (nth_error (rows (exec (toggleRow (Some (MemberRow i)) forceOpen) t)) i) =
    option_map Row.repObject (nth_error (rows t) i).
Proof.
  unfold exec. destruct (nth_error (rows t) i) as [r|] eqn:Hn.
  2:{ unfold toggleRow, getRepObject, memberRow. run. rewrite Hn. cbn.
      rewrite Hn. split; reflexivity. }
  destruct (Row.opened r) eqn:Ho.
  { rewrite (toggleRow_opened t i forceOpen Hn Ho).
    destruct forceOpen; cbn [fst snd]; [rewrite Hn; split; reflexivity|].
    rewrite !rows_setElement.
    assert (Hcut : exists keep,
              removeSubtree (getRowLevel r) (skipn (S i) (rows t)) = keep).
    { eexists. reflexivity. }
    destruct Hcut as [keep Hkeep]. rewrite Hkeep.
    pose proof (around_nth (firstn i (rows t)) (Row.setOpened false r) keep)
      as (H1 & H2 & _).
    destruct (nth_error_split_at _ _ Hn) as [_ Hlen]. rewrite Hlen in H1, H2.
    rewrite H1, H2. split; reflexivity. }
  destruct (Member.hasChildren (Row.repObject r)) eqn:Hc.
  2:{ rewrite (toggleRow_leaf_run t i r forceOpen Hn Ho Hc). cbn [fst snd].
      rewrite Hn. split; reflexivity. }
  rewrite (toggleRow_collapsed_run t i r forceOpen Hn Ho Hc).
  set (t0 := setElement (Some (setNth i (Row.setOpened true r) (rows t))) t).
  pose proof (getMembers_element (Member.value (Row.repObject r))
                (Row.level r + 1) t0) as Hel.
  destruct (getMembers (Member.value (Row.repObject r)) (Row.level r + 1) t0)
    as [[[members|promise]|e] t1]; cbn [fst snd] in *.
  - rewrite !rows_setElement.
    destruct (firstn_around (rows t) i r (Row.setOpened true r) (map rowTag members) Hn)
      as (Hn' & Hf & _).
    rewrite Hn', Hf. split; reflexivity.
  - rewrite !rows_setElement.
    rewrite (firstn_setNth _ _ _ _ Hn), (nth_error_setNth_same _ _ _ _ Hn).
    split; reflexivity.
  - assert (Hr : rows t1 = setNth i (Row.setOpened true r) (rows t))
      by (unfold rows at 1; rewrite Hel; reflexivity).
    rewrite Hr.
    rewrite (firstn_setNth _ _ _ _ Hn), (nth_error_setNth_same _ _ _ _ Hn).
    split; reflexivity.
Qed.

(** ** Looking rows up *)

Lemma findIndex_spec {A} (f : A -> bool) (l : list A) :
  match findIndex f l with
  | Some i =>
      exists x, nth_error l i = Some x /\ f x = true /\
                Forall (fun y => f y = false) (firstn i l)
  | None => Forall (fun y => f y = false) l
  end.
Proof.
  induction l as [|a l IH]; simpl.
  - constructor.
  - destruct (f a) eqn:Ha.
    + exists a. repeat split; [exact Ha | constructor].
    + destruct (findIndex f l) as [i|]; simpl.
      * destruct IH as (x & Hn & Hx & Hbefore). exists x.
        repeat split; [exact Hn | exact Hx |].
        change (firstn (S i) (a :: l)) with (a :: firstn i l).
        constructor; assumption.
      * constructor; assumption.
Qed.


(** X8. When comparing the object with the values of the mounted rows
    needs no type coercion, [getRow(object)] answers the first mounted row
    whose member's value is [==] to the object: no row above it matches; it
    answers no row exactly when no mounted row matches (in particular
    before the first render). *)
Theorem getRow_first_match (t : DomTree) (object : Value) :
  Forall (fun row => coerces (rowValue row) object = false) (rows t) ->
  match getRow object t with
  | Some i =>
      exists r, nth_error (rows t) i = Some r /\
                looseEq (rowValue r) object = true /\
                Forall (fun row => looseEq (rowValue row) object = false)
                  (firstn i (rows t))
  | None => Forall (fun row => looseEq (rowValue row) object = false) (rows t)
  end.
Proof.
  intros _. unfold getRow, rows. destruct (element t) as [rs|]; [|constructor].
  apply (findIndex_spec (fun row => looseEq (rowValue row) object) rs).
Qed.

(** ** updateObject *)

#[local] Arguments toggleRow : simpl never.
#[local] Arguments doUpdateObject : simpl never.
#[local] Arguments expandObject : simpl never.
#[local] Arguments collapseObject : simpl never.
#[local] Arguments assignHasChildren : simpl never.
#[local] Arguments removeSubtree : simpl never.

(** X9. [updateObject] never throws: whatever [doUpdateObject] throws (a
    provider fault, a missing input or table) is reported on the diagnostic
    channel instead, and otherwise [updateObject] does just what
    [doUpdateObject] does; nor does the fulfilment callback of a fetch
    throw. *)
Theorem updateObject_never_throws (t : DomTree) (object : Value) :
  fst (updateObject object t) = Ret tt /\
  match fst (doUpdateObject object t) with
  | Throw e =>
      trace (exec (updateObject object) t) =
        ErrorSysout ("domTree.updateObject; EXCEPTION " ++ e)%string ::
        trace (exec (doUpdateObject object) t)
  | Ret _ => exec (updateObject object) t = exec (doUpdateObject object) t
  end /\
  (forall promise value, fst (promiseFulfilled promise value t) = Ret tt).
Proof.
  assert (Hupd : forall t0 o, fst (updateObject o t0) = Ret tt).
  { intros t0 o. unfold updateObject.
    destruct (doUpdateObject o t0) as [[[]|e] t1]; reflexivity. }
  split; [apply Hupd|]. split.
  - unfold exec, updateObject.
    destruct (doUpdateObject object t) as [[[]|e'] t1]; reflexivity.
  - intros promise value. unfold promiseFulfilled, onFulfilled. run.
    destruct (lookupCallback promise (thenCallbacks t)) as [o|]; [|reflexivity].
    cbn. apply Hupd.
Qed.











(** ** A fetch fulfilled late *)


(** X18. A registered fetch is fulfilled for an object that is not the
    root, compared without type coercion, and to which no mounted row is
    bound (its row was removed meanwhile): the callback returns normally,
    the table is left untouched, and the resolved children stay stored in
    [fetchedChildren]. *)
Theorem promiseFulfilled_without_row (t : DomTree) (inp : Input.t)
    (promise : nat) (object : Value) (value : list Value) :
  lookupCallback promise (thenCallbacks t) = Some object ->
  input t = Some inp ->
  coerces (Input.object inp) object = false ->
  looseEq (Input.object inp) object = false ->
  Forall (fun row => coerces (rowValue row) object = false) (rows t) ->
  getRow object t = None ->
  fst (promiseFulfilled promise value t) = Ret tt /\
  element (exec (promiseFulfilled promise value) t) = element t /\
  fetchedChildren (exec (promiseFulfilled promise value) t) = Some value.
Proof.
  intros Hcb Hin _ Hroot _ Hrow.
  destruct (@promiseFulfilled_removed_row t inp promise object value
              Hcb Hin Hroot Hrow) as (Hret & Htable & Hstored).
  split; [exact Hret|]. split; [exact Htable | exact Hstored].
Qed.

(** ** Clicks *)

#[local] Arguments nth_error : simpl never.

(** X13. Two left clicks on the label of a collapsed row give back the row
    list as it was, provided no member provider answers for the row's
    value, the expansion the first click starts returns without a promise
    or exception and the row that follows is not deeper than the clicked
    one; neither click throws. *)
Theorem onClick_twice_restores (t : DomTree) (i : nat) (r : Row.t) :
  nth_error (rows t) i = Some r ->
  Row.opened r = false ->
  memberProviderMembers t (rowValue r) (Row.level r + 1) = None ->
  (forall next, nth_error (rows t) (S i) = Some next ->
                Row.level next <= Row.level r) ->
  fst (toggleRow (Some (MemberRow i)) false t) = Ret None ->
  fst (onClick (labelClick i) t) = Ret tt /\
  fst (onClick (labelClick i) (exec (onClick (labelClick i)) t)) = Ret tt /\
  rows (exec (onClick (labelClick i)) (exec (onClick (labelClick i)) t)) = rows t.
Proof.
  intros Hn Ho Hhook Hnext Hfirst.
  destruct (toggleRow_twice_run t i r Hn Ho Hhook Hnext Hfirst)
    as (Hclass & Hsecond & Hrows).
  assert (Hclick : forall s,
            onClick (labelClick i) s =
            if hasChildrenClass (MemberRow i) s
            then (toggleRow (Some (MemberRow i)) false ;;; ret tt) s
            else (Ret tt, s)).
  { intros s. unfold onClick, labelClick. run. cbn.
    destruct (hasChildrenClass (MemberRow i) s); reflexivity. }
  assert (Hcls : forall s x, nth_error (rows s) i = Some x ->
                   hasChildrenClass (MemberRow i) s = Row.hasChildren x).
  { intros s x Hx. unfold hasChildrenClass, memberRow. rewrite Hx. reflexivity. }
  assert (Hdisc : forall s,
            (toggleRow (Some (MemberRow i)) false ;;; ret tt) s =
            match toggleRow (Some (MemberRow i)) false s with
            | (Ret _, s') => (Ret tt, s')
            | (Throw e, s') => (Throw e, s')
            end) by reflexivity.
  unfold exec in *. rewrite (Hclick t), (Hcls t r Hn).
  destruct (Row.hasChildren r) eqn:Hmark.
  - rewrite (Hdisc t).
    destruct (toggleRow (Some (MemberRow i)) false t) as [[res|e] t1] eqn:Ht1;
      cbn [fst snd] in *; [|discriminate].
    destruct (nth_error (rows t1) i) as [x|] eqn:Hx; [|discriminate].
    cbn in Hclass. injection Hclass as Hclass.
    rewrite (Hclick t1), (Hcls t1 x Hx), Hclass, (Hdisc t1).
    destruct (toggleRow (Some (MemberRow i)) false t1) as [[res2|e2] t2];
      cbn [fst snd] in *; [|discriminate].
    repeat split. exact Hrows.
  - cbn [fst snd]. rewrite (Hclick t), (Hcls t r Hn), Hmark. repeat split.
Qed.

(** ** Looking a row up by its member *)

(** X14. [getMemberRow(member)] answers the first mounted row bound to that
    very member object; no row above it is bound to it; it answers no row
    exactly when no mounted row is bound to it. *)
Theorem getMemberRow_first_match (t : DomTree) (member : Member.t) :
  match getMemberRow member t with
  | Some i =>
      exists r, nth_error (rows t) i = Some r /\
                Member.id (Row.repObject r) = Member.id member /\
                Forall (fun row => Member.id (Row.repObject row) <> Member.id member)
                  (firstn i (rows t))
  | None =>
      Forall (fun row => Member.id (Row.repObject row) <> Member.id member) (rows t)
  end.
Proof.
  assert (Hno : forall l,
            Forall (fun row => Nat.eqb (Member.id member)
                                 (Member.id (Row.repObject row)) = false) l ->
            Forall (fun row => Member.id (Row.repObject row) <> Member.id member) l).
  { intros l H. eapply Forall_impl; [|exact H]. intros row Hrow Heq.
    cbv beta in Hrow. rewrite Heq, Nat.eqb_refl in Hrow. discriminate. }
  unfold getMemberRow, rows. destruct (element t) as [rs|]; [|constructor].
  pose proof (findIndex_spec
                (fun row => Nat.eqb (Member.id member) (Member.id (Row.repObject row)))
                rs) as H.
  destruct (findIndex _ rs) as [i|].
  - destruct H as (r & Hn & Hr & Hbefore). exists r.
    split; [exact Hn|]. split; [symmetry; apply Nat.eqb_eq; exact Hr | apply Hno; exact Hbefore].
  - apply Hno. exact H.
Qed.

(** ** Rendering the root *)

(** X15. [replace] with [noExpand] set, when no member provider answers,
    no children received earlier are stored in [fetchedChildren], the
    provider hands the children of the input's object back at once and
    answers [hasChildren] and [getLabel] for every child: the container is
    cleared, the input is bound, and the table holds one row per child, in
    order, at level 0 and collapsed, each marked [hasChildren] as the
    provider says. *)
Theorem replace_mounts_children (t : DomTree) (p : Provider.t)
    (container : list nat) (inp : Input.t) (children : list Value)
    (hc : Value -> bool) (label : Value -> string) :
  memberProviderMembers t (Input.object inp) 0 = None ->
  provider t = Some p ->
  fetchedChildren t = None ->
  Provider.getChildren p (Input.object inp) = Ret (Provider.Sequence children) ->
  (forall child, In child children ->
     Provider.hasChildren p child = Ret (hc child) /\
     Provider.getLabel p child = Ret (label child)) ->
  fst (replace container inp true t) = Ret tt /\
  map rowValue (rows (exec (replace container inp true) t)) = children /\
  map Row.hasChildren (rows (exec (replace container inp true) t)) =
    map hc children /\
  Forall (fun row => Row.level row = 0 /\ rowState row = Collapsed)
    (rows (exec (replace container inp true) t)) /\
  parentNode (exec (replace container inp true) t) = Some [] /\
  input (exec (replace container inp true) t) = Some inp.
Proof.
  intros Hhook Hp Hf Hc Hok.
  set (t0 := setInput (Some inp) (setParentNode (Some []) t)).
  pose proof (getMembers_sequence_run t0 p (Input.object inp) 0 children hc label
                Hhook Hp Hf Hc Hok) as Hget.
  assert (Hrun : replace container inp true t =
            (Ret tt,
             setElement
               (Some (map rowTag (providerMembers hc label (nextMember t) children 0)))
               (setNextMember (nextMember t + List.length children)
                  (setFetchedChildren None t0)))).
  { unfold replace, clearNode, append, memberIterator. run. fold t0.
    rewrite Hget. reflexivity. }
  unfold exec. rewrite Hrun. cbn [fst snd]. rewrite rows_setElement.
  repeat split.
  - unfold rowValue. rewrite map_map.
    change (fun x => Member.value (Row.repObject (rowTag x))) with Member.value.
    apply providerMembers_values.
  - rewrite map_map.
    change (fun x => Row.hasChildren (rowTag x)) with Member.hasChildren.
    apply providerMembers_flags.
  - apply rowTag_fresh. apply providerMembers_shape.
Qed.

(** ** Enumerating properties *)

(** X16. [getObjectProperties] never throws, whatever the callback does:
    a fault of the callback is caught inside the loop. *)
Theorem getObjectProperties_never_throws {A : Type}
    (props : list (string * Value)) (callback : string -> Value -> A -> M A)
    (acc : A) (t : DomTree) :
  exists acc', fst (getObjectProperties props callback acc t) = Ret acc'.
Proof.
  revert acc t. induction props as [|[prop v] rest IH]; intros acc t; simpl.
  - exists acc. reflexivity.
  - destruct (callback prop v acc t) as [[acc'|e] t1].
    + apply IH.
    + run. apply IH.
Qed.

(** ** Witnesses of the further properties *)

Lemma gripProvider_answers (children : list Value) :
  forall child, In child children ->
    Provider.hasChildren gripProvider child = Ret (gripHasChildren child) /\
    Provider.getLabel gripProvider child = Ret ((fun _ => "grip") child).
Proof.
  intros child _. split; [|reflexivity].
  destruct child as [| | | |[|[|[|ref]]]]; reflexivity.
Defined.

Lemma treeProvider_answers (children : list Value) :
  forall child, In child children ->
    Provider.hasChildren treeProvider child = Ret (treeHasChildren child) /\
    Provider.getLabel treeProvider child = Ret ((fun _ => "node") child).
Proof.
  intros child _. split; [|reflexivity].
  destruct child as [| | | |[|[|ref]]]; reflexivity.
Defined.

(** The members of object 0 over [gripProvider]. *)
Lemma getMembers_one_member_per_child_witness :
  exists members,
    fst (getMembers (VObject 0) 0 (newDomTree (Some gripProvider) emptyHeap)) =
      Ret (MembersArray members) /\
    map Member.value members = [VObject 1; VObject 2] /\
    map Member.hasChildren members = [true; true].
Proof.
  destruct (getMembers_one_member_per_child
              (newDomTree (Some gripProvider) emptyHeap) gripProvider (VObject 0) 0
              [VObject 1; VObject 2] gripHasChildren (fun _ => "grip")
              eq_refl eq_refl eq_refl eq_refl
              (gripProvider_answers [VObject 1; VObject 2]))
    as (members & H1 & H2 & _ & H4 & _).
  exists members. split; [exact H1|]. split; [exact H2 | exact H4].
Defined.

(** The members of [{a: {x: 1}, b: 2}] by reflection. *)
Lemma getMembers_reflection_witness :
  exists members,
    fst (getMembers (VObject 0) 0 (newDomTree None sampleHeap)) =
      Ret (MembersArray members) /\
    map (fun m => (Member.name m, Member.value m)) members =
      [("a", VObject 1); ("b", VNumber 2)].
Proof.
  destruct (getMembers_reflection (newDomTree None sampleHeap) (VObject 0) 0
              eq_refl eq_refl) as (members & H1 & H2 & _).
  exists members. split; [exact H1 | exact H2].
Defined.

(** Expanding the row of object 1 over [treeProvider]. *)
Lemma toggleRow_expand_mounts_children_witness :
  exists members,
    fst (toggleRow (Some (MemberRow 0)) false treeRendered) = Ret None /\
    rows (exec (toggleRow (Some (MemberRow 0)) false) treeRendered) =
      firstn 0 (rows treeRendered) ++ Row.setOpened true treeRowA ::
      map rowTag members ++ skipn 1 (rows treeRendered) /\
    map Member.value members = [VObject 3; VObject 4].
Proof.
  destruct (toggleRow_expand_mounts_children treeRendered treeProvider 0 treeRowA
              [VObject 3; VObject 4] treeHasChildren (fun _ => "node") false
              eq_refl eq_refl eq_refl eq_refl eq_refl eq_refl eq_refl
              (treeProvider_answers [VObject 3; VObject 4]))
    as (members & H1 & H2 & H3 & _).
  exists members. split; [exact H1|]. split; [exact H2 | exact H3].
Defined.

(** Expanding the row of object 1 over [gripProvider], which promises. *)
Lemma toggleRow_pending_marks_row_witness :
  fst (toggleRow (Some (MemberRow 0)) false rendered) = Ret (Some 0) /\
  thenCallbacks (exec (toggleRow (Some (MemberRow 0)) false) rendered) =
    [(0, VObject 1)].
Proof.
  destruct (toggleRow_pending_marks_row rendered gripProvider 0 rowA false
              eq_refl eq_refl eq_refl eq_refl eq_refl eq_refl eq_refl)
    as (H1 & _ & _ & H4 & _).
  split; [exact H1 | exact H4].
Defined.

Lemma getMembers_levels_witness :
  Forall (fun m => Member.level m = 0) [Row.repObject rowA; Row.repObject rowB].
Proof.
  apply (getMembers_levels (newDomTree (Some gripProvider) emptyHeap) (VObject 0) 0
           [Row.repObject rowA; Row.repObject rowB]); reflexivity.
Defined.

Lemma treeRendered_next_row :
  forall next, nth_error (rows treeRendered) 1 = Some next ->
               Row.level next <= Row.level treeRowA.
Proof.
  intros next H. vm_compute in H. injection H as <-. apply le_n.
Defined.

(** Expanding and collapsing the row of object 1 over [treeProvider]. *)
Lemma toggleRow_expand_collapse_restores_witness :
  rows (exec (toggleRow (Some (MemberRow 0)) false)
          (exec (toggleRow (Some (MemberRow 0)) false) treeRendered)) =
    rows treeRendered.
Proof.
  apply (proj2 (toggleRow_expand_collapse_restores treeRendered 0 treeRowA
                  eq_refl eq_refl eq_refl treeRendered_next_row eq_refl)).
Defined.

(** Two clicks on the label of the row of object 1. *)
Lemma onClick_twice_restores_witness :
  rows (exec (onClick (labelClick 0)) (exec (onClick (labelClick 0)) treeRendered)) =
    rows treeRendered.
Proof.
  apply (proj2 (proj2 (onClick_twice_restores treeRendered 0 treeRowA
                         eq_refl eq_refl eq_refl treeRendered_next_row eq_refl))).
Defined.

(** No comparison with an object reference coerces when every mounted
    value is an object reference. *)
Lemma objects_comparable (ref : nat) (rs : list Row.t) :
  Forall (fun row => exists ref', rowValue row = VObject ref') rs ->
  Forall (fun row => coerces (rowValue row) (VObject ref) = false) rs.
Proof.
  intros H. eapply Forall_impl; [|exact H].
  intros row (ref' & ->). reflexivity.
Defined.

Lemma rendered_objects :
  Forall (fun row => exists ref', rowValue row = VObject ref') (rows rendered).
Proof. repeat constructor; eexists; reflexivity. Defined.




(** Looking up object 2 in [rendered]: the second row. *)
Lemma getRow_first_match_witness :
  exists r, nth_error (rows rendered) 1 = Some r /\
            looseEq (rowValue r) (VObject 2) = true /\
            Forall (fun row => looseEq (rowValue row) (VObject 2) = false)
              (firstn 1 (rows rendered)).
Proof.
  exact (getRow_first_match rendered (VObject 2)
           (objects_comparable 2 (rows rendered) rendered_objects)).
Defined.




(** Rendering object 0 over [gripProvider] into a container that held a
    node. *)
Lemma replace_mounts_children_witness :
  fst (replace [7] rootInput true (newDomTree (Some gripProvider) emptyHeap)) = Ret tt /\
  map rowValue
    (rows (exec (replace [7] rootInput true)
             (newDomTree (Some gripProvider) emptyHeap))) =
    [VObject 1; VObject 2].
Proof.
  destruct (replace_mounts_children (newDomTree (Some gripProvider) emptyHeap)
              gripProvider [7] rootInput [VObject 1; VObject 2]
              gripHasChildren (fun _ => "grip")
              eq_refl eq_refl eq_refl eq_refl
              (gripProvider_answers [VObject 1; VObject 2]))
    as (H1 & H2 & _).
  split; [exact H1 | exact H2].
Defined.


(** Promise 0 fulfilled after the table was rendered again on object 2,
    which has no children: no row is left for object 1. *)
Lemma promiseFulfilled_without_row_witness :
  fst (promiseFulfilled 0 [VObject 10; VObject 11] rerendered) = Ret tt /\
  element (exec (promiseFulfilled 0 [VObject 10; VObject 11]) rerendered) =
    element rerendered /\
  fetchedChildren (exec (promiseFulfilled 0 [VObject 10; VObject 11]) rerendered) =
    Some [VObject 10; VObject 11].
Proof.
  exact (promiseFulfilled_without_row rerendered (Input.mk false 0 (VObject 2))
           0 (VObject 1) [VObject 10; VObject 11]
           eq_refl eq_refl eq_refl eq_refl (Forall_nil _) eq_refl).
Defined.
